(** * The stack of the serverless image handler: parameters, groups, outputs

    A shallow embedding of [source/constructs/lib/constructs-stack.ts].
    The constructor of [ConstructsStack] declares the template's
    parameters, groups them for the console, instantiates the image
    handler construct and republishes some of its values as outputs.

    The constructor mutates the stack it builds ([new CfnParameter(this, ..)],
    [new CfnOutput(this, ..)], [overrideLogicalId]) and may throw; it is
    embedded in a state-and-error monad over the stack's construct table. *)

From Stdlib Require Import Ascii.
From stdpp Require Import gmap strings list.

Local Open Scope string_scope.

(** ** The parts of the construct library that the file uses *)

(** Values of template properties: plain strings and the intrinsic
    functions built by [cdk.Fn.ref], [cdk.Fn.sub] and [cdk.Fn.conditionIf]. *)
Inductive CfnValue : Type :=
| Literal (s : string)
| FnRef (logicalName : string)
| FnSub (body : string)
| FnConditionIf (conditionId : string) (valueIfTrue valueIfFalse : CfnValue).

(** [CfnParameterProps]: every field is optional in the library. *)
Record CfnParameterProps : Type := mkParameterProps {
  param_description : option string;
  param_type : option string;
  param_default : option string;
  param_allowedPattern : option string;
  param_allowedValues : option (list string)
}.

(** A declared parameter.  At the top level of a stack the logical id of
    an element is the id it was constructed with. *)
Record CfnParameter : Type := mkParameter {
  logicalId : string;
  param_props : CfnParameterProps
}.

(** [p.valueAsString]: a reference to the parameter. *)
Definition valueAsString (p : CfnParameter) : CfnValue := FnRef (logicalId p).

(** [CfnOutputProps].  [output_condition] holds the name of the
    [CfnCondition] passed as [condition]. *)
Record CfnOutputProps : Type := mkOutputProps {
  output_description : option string;
  output_value : CfnValue;
  output_condition : option string
}.

(** A declared output; [overrideLogicalId] replaces [output_logicalId]. *)
Record CfnOutput : Type := mkOutput {
  output_logicalId : string;
  output_props : CfnOutputProps
}.

(** Condition expressions ([cdk.Fn.conditionEquals] and the like). *)
Inductive CfnConditionExpression : Type :=
| ConditionEquals (lhs rhs : CfnValue)
| ConditionNot (c : CfnConditionExpression)
| ConditionAnd (c1 c2 : CfnConditionExpression)
| ConditionOr (c1 c2 : CfnConditionExpression).

(** The image handler construct lives in [./serverless-image-handler],
    which is not among the sources at hand.  This file consumes it through
    its node only: [tryFindChild] and [findChild] on four condition names.
    It is therefore taken as a parameter of the constructor, by the named
    conditions it exposes; a condition's name is the name the template
    refers to it by. *)
Record ServerlessImageHandler : Type := mkImageHandler {
  node_children : gmap string CfnConditionExpression
}.

(** [ServerlessImageHandlerProps]: the bag of parameter handles built at
    [sihProps]; the four region-only handles may be [undefined]. *)
Record ServerlessImageHandlerProps : Type := mkSihProps {
  apiDomain : option CfnParameter;
  apiCertificateIamId : option CfnParameter;
  deployDemoUiParameter : CfnParameter;
  demoUIDomain : option CfnParameter;
  demoUICertificateIamId : option CfnParameter;
  corsEnabledParameter : CfnParameter;
  corsOriginParameter : CfnParameter;
  sourceBucketsParameter : CfnParameter;
  logRetentionPeriodParameter : CfnParameter;
  autoWebPParameter : CfnParameter;
  enableSignatureParameter : CfnParameter;
  secretsManagerParameter : CfnParameter;
  secretsManagerKeyParameter : CfnParameter;
  enableDefaultFallbackImageParameter : CfnParameter;
  fallbackImageS3BucketParameter : CfnParameter;
  fallbackImageS3KeyParameter : CfnParameter
}.

(** One entry of [ParameterGroups]: [Label] holds the text the source
    stores under [Label.default]. *)
Record ParameterGroup : Type := mkGroup {
  Label : string;
  Parameters : list string
}.

(** [templateOptions] of the stack: description, format version and the
    [ParameterGroups] list of the ['AWS::CloudFormation::Interface']
    metadata.  The list is an array of [group | undefined] in the source. *)
Record TemplateOptions : Type := mkTemplateOptions {
  description : option string;
  templateFormatVersion : option string;
  metadata : option (list (option ParameterGroup))
}.

(** The elements a stack holds, each under its construct id. *)
Inductive CfnElement : Type :=
| ElParameter (p : CfnParameter)
| ElMapping (mapping : list (string * list (string * string)))
| ElOutput (o : CfnOutput)
| ElImageHandler (h : ServerlessImageHandler).

(** The stack under construction: its children in declaration order and
    its template options. *)
Record Stack : Type := mkStack {
  children : list (string * CfnElement);
  templateOptions : TemplateOptions
}.

Definition emptyStack : Stack :=
  mkStack [] (mkTemplateOptions None None None).

(** ** Synthesis-time failures and the constructor's monad *)

Inductive SynthError : Type :=
| EmptyConstructId
| DuplicateConstructId (id : string)
| NoChildWithId (id : string).

Inductive Result (A : Type) : Type :=
| Ok (a : A)
| Failed (e : SynthError).
Arguments Ok {A} a.
Arguments Failed {A} e.

Definition Synth (A : Type) : Type := Stack -> Result (A * Stack).

Definition ret {A} (a : A) : Synth A := fun st => Ok (a, st).

Definition throw {A} (e : SynthError) : Synth A := fun _ => Failed e.

Definition bind {A B} (m : Synth A) (k : A -> Synth B) : Synth B :=
  fun st =>
    match m st with
    | Ok (a, st') => k a st'
    | Failed e => Failed e
    end.

Notation "'let*' x ':=' m 'in' k" := (bind m (fun x => k))
  (at level 10, x name, m at level 100, k at level 200).
Notation "m ';;' k" := (bind m (fun _ => k))
  (at level 100, k at level 200, right associativity).

(** Lookup of a child by construct id. *)
Fixpoint findElement (id : string) (cs : list (string * CfnElement))
  : option CfnElement :=
  match cs with
  | [] => None
  | (id', e) :: cs' => if decide (id' = id) then Some e else findElement id cs'
  end.

(** [new X(this, id, ..)]: the library refuses an empty id below the root
    and an id already used in the scope; otherwise the element is appended
    to the children of the stack.  The id is stored as given, which is what
    the library does with an id free of path separators ([plainId] below
    covers the ids of the constructor). *)
Definition addChild (id : string) (e : CfnElement) : Synth unit :=
  fun st =>
    if decide (id = "") then Failed EmptyConstructId
    else match findElement id (children st) with
         | Some _ => Failed (DuplicateConstructId id)
         | None =>
             Ok (tt, mkStack (children st ++ [(id, e)]) (templateOptions st))
         end.

(** [new CfnParameter(this, id, props)].  The logical id of the handle is
    the construct id, as the library has it for a [plainId] at the top of
    a stack. *)
Definition newCfnParameter (id : string) (props : CfnParameterProps)
  : Synth CfnParameter :=
  let p := mkParameter id props in
  addChild id (ElParameter p);; ret p.

(** [new cdk.CfnOutput(this, id, props)].  The handle returned is the
    construct id: the output itself stays in the stack's table, where
    [overrideLogicalId] updates it. *)
Definition newCfnOutput (id : string) (props : CfnOutputProps) : Synth string :=
  addChild id (ElOutput (mkOutput id props));; ret id.

Definition newCfnMapping (id : string)
    (mapping : list (string * list (string * string))) : Synth unit :=
  addChild id (ElMapping mapping).

Fixpoint renameOutput (id newLogicalId : string)
    (cs : list (string * CfnElement)) : list (string * CfnElement) :=
  match cs with
  | [] => []
  | (id', e) :: cs' =>
      if decide (id' = id) then
        match e with
        | ElOutput o => (id', ElOutput (mkOutput newLogicalId (output_props o))) :: cs'
        | _ => (id', e) :: cs'
        end
      else (id', e) :: renameOutput id newLogicalId cs'
  end.

(** [output.overrideLogicalId(newLogicalId)] on the output held under
    [handle].  The library uses the override only when it is truthy: with
    the empty string the output keeps the logical id it had. *)
Definition overrideLogicalId (handle newLogicalId : string) : Synth unit :=
  fun st =>
    if decide (newLogicalId = "") then Ok (tt, st)
    else Ok (tt, mkStack (renameOutput handle newLogicalId (children st))
                         (templateOptions st)).

(** Ids of letters and digits only, at most 255 characters long and other
    than [Default].  On these the library neither rewrites the construct
    id nor derives a different logical id from it, so the declarations
    above behave as the library does; every id of the constructor is one. *)
Definition alphanumericChar (c : ascii) : bool :=
  let n := nat_of_ascii c in
  (Nat.leb 48 n && Nat.leb n 57) || (Nat.leb 65 n && Nat.leb n 90)
  || (Nat.leb 97 n && Nat.leb n 122).

Fixpoint alphanumeric (s : string) : bool :=
  match s with
  | EmptyString => true
  | String c s' => alphanumericChar c && alphanumeric s'
  end.

Definition plainId (id : string) : bool :=
  negb (bool_decide (id = "")) && alphanumeric id
  && Nat.leb (String.length id) 255 && negb (bool_decide (id = "Default")).

(** [node.tryFindChild(name)] and [node.findChild(name)] on the image
    handler: the former answers [undefined] for a missing child, the latter
    throws.  Only the name of the child found is used afterwards. *)
Definition tryFindChild (h : ServerlessImageHandler) (name : string)
  : option string :=
  match node_children h !! name with
  | Some _ => Some name
  | None => None
  end.

Definition findChild (h : ServerlessImageHandler) (name : string)
  : Synth string :=
  match tryFindChild h name with
  | Some c => ret c
  | None => throw (NoChildWithId name)
  end.

(** Assignments to [this.templateOptions]. *)
Definition setDescription (d : string) : Synth unit :=
  fun st =>
    let o := templateOptions st in
    Ok (tt, mkStack (children st)
              (mkTemplateOptions (Some d) (templateFormatVersion o) (metadata o))).

Definition setTemplateFormatVersion (v : string) : Synth unit :=
  fun st =>
    let o := templateOptions st in
    Ok (tt, mkStack (children st)
              (mkTemplateOptions (description o) (Some v) (metadata o))).

Definition setMetadata (groups : list (option ParameterGroup)) : Synth unit :=
  fun st =>
    let o := templateOptions st in
    Ok (tt, mkStack (children st)
              (mkTemplateOptions (description o) (templateFormatVersion o)
                 (Some groups))).

(** ** The module-level definitions of the file *)

(** [process.env], and [const { VERSION, CHINA_REGION } = process.env]. *)
Definition VERSION (env : gmap string string) : option string := env !! "VERSION".
Definition CHINA_REGION (env : gmap string string) : option string :=
  env !! "CHINA_REGION".

(** [!!CHINA_REGION]: [undefined] and the empty string are falsy. *)
Definition IS_CHINA_REGION (env : gmap string string) : bool :=
  match CHINA_REGION env with
  | Some s => negb (bool_decide (s = ""))
  | None => false
  end.

(** [paramGroup]: map every handle to its logical id, an absent one to the
    empty string, then keep the truthy (non-empty) ids. *)
Definition paramGroup (label : string) (params : list (option CfnParameter))
  : ParameterGroup :=
  {| Label := label;
     Parameters :=
       filter (fun id => id ≠ "")
         (map (fun p => match p with Some p => logicalId p | None => "" end)
              params) |}.

Definition paramGroupIf (expression : bool) (label : string)
    (params : list (option CfnParameter)) : option ParameterGroup :=
  if expression then Some (paramGroup label params) else None.

(** ** The constructor of [ConstructsStack] *)

(** The two closures over [this] for parameters. *)
Definition cfnParamIf (expression : bool) (id : string)
    (props : CfnParameterProps) : Synth (option CfnParameter) :=
  if expression then
    let* p := newCfnParameter id props in ret (Some p)
  else ret None.

Definition cfnParam (id : string) (props : CfnParameterProps)
  : Synth CfnParameter :=
  newCfnParameter id props.

(** The two closures over [this] for outputs.  [cfnOutputIf] creates the
    output when asked to and returns [undefined] on both paths. *)
Definition cfnOutput (id : string) (props : CfnOutputProps) : Synth string :=
  newCfnOutput id props.

Definition cfnOutputIf (expression : bool) (id : string)
    (props : CfnOutputProps) : Synth (option string) :=
  (if expression then newCfnOutput id props;; ret tt else ret tt);;
  ret None.

Definition domainPattern : string :=
  "^$|(([a-zA-Z0-9]|[a-zA-Z0-9][a-zA-Z0-9\-]*[a-zA-Z0-9])\.)*([A-Za-z0-9]|[A-Za-z0-9][A-Za-z0-9\-]*[A-Za-z0-9])$".

Definition yesNo : list string := ["Yes"; "No"].

Definition retentionDays : list string :=
  ["1"; "3"; "5"; "7"; "14"; "30"; "60"; "90"; "120"; "150"; "180"; "365";
   "400"; "545"; "731"; "1827"; "3653"].

Definition signatureLabel : string :=
  "Image URL Signature (Note: Enabling signature is not compatible with previous image URLs, which could result in broken image links. Please refer to the implementation guide for details: https://docs.aws.amazon.com/solutions/latest/serverless-image-handler/considerations.html)".

Definition fallbackLabel : string :=
  "Default Fallback Image (Note: Enabling default fallback image returns the default fallback image instead of JSON object when error happens. Please refer to the implementation guide for details: https://docs.aws.amazon.com/solutions/latest/serverless-image-handler/considerations.html)".

(** The template literal of the description: an [undefined] version is
    printed as the word. *)
Definition templateDescription (env : gmap string string) : string :=
  "(SO0023) - Serverless Image Handler with aws-solutions-constructs: This template deploys and configures a serverless architecture that is optimized for dynamic image manipulation and delivery at low latency and cost. Leverages SharpJS for image processing. Template version "
  +:+ default "undefined" (VERSION env).

(** The [ParameterGroups] array with its closing [.filter(p => p)]. *)
Definition parameterGroups (region : bool) (props : ServerlessImageHandlerProps)
  : list (option ParameterGroup) :=
  filter is_Some
    [ paramGroupIf region "API Configuration"
        [apiDomain props; apiCertificateIamId props];
      Some (paramGroup "CORS Options"
        [Some (corsEnabledParameter props); Some (corsOriginParameter props)]);
      Some (paramGroup "Image Sources" [Some (sourceBucketsParameter props)]);
      Some (paramGroup "Demo UI"
        [Some (deployDemoUiParameter props); demoUIDomain props;
         demoUICertificateIamId props]);
      Some (paramGroup "Event Logging"
        [Some (logRetentionPeriodParameter props)]);
      Some (paramGroup signatureLabel
        [Some (enableSignatureParameter props);
         Some (secretsManagerParameter props);
         Some (secretsManagerKeyParameter props)]);
      Some (paramGroup fallbackLabel
        [Some (enableDefaultFallbackImageParameter props);
         Some (fallbackImageS3BucketParameter props);
         Some (fallbackImageS3KeyParameter props)]);
      Some (paramGroup "Auto WebP" [Some (autoWebPParameter props)]) ].

(** The property bags of the sixteen parameters, as the object literals of
    the source give them. *)
Definition apiDomainProps : CfnParameterProps :=
  mkParameterProps
    (Some "Choose an ICP licensed domain for the Image Handler distribution")
    (Some "String") None (Some domainPattern) None.

Definition apiCertificateIamIdProps : CfnParameterProps :=
  mkParameterProps
    (Some "[Optional] Do you want enable SSL certificate for the Image Handler distribution? If yes, please upload SSL certificate to IAM using AWS CLI")
    (Some "String") (Some "") None None.

Definition deployDemoUiProps : CfnParameterProps :=
  mkParameterProps
    (Some "Would you like to deploy a demo UI to explore the features and capabilities of this solution? This will create an additional Amazon S3 bucket and Amazon CloudFront distribution in your account.")
    (Some "String") (Some "Yes") None (Some yesNo).

Definition demoUIDomainProps : CfnParameterProps :=
  mkParameterProps
    (Some "Choose an ICP licensed domain for the Image Handler DemoUI")
    (Some "String") (Some "") (Some domainPattern) None.

Definition demoUICertificateIamIdProps : CfnParameterProps :=
  mkParameterProps
    (Some "[Optional] Do you want enable SSL certificate for the DemoUI? If yes, please upload SSL certificate to IAM using AWS CLI")
    (Some "String") (Some "") None None.

Definition corsEnabledProps : CfnParameterProps :=
  mkParameterProps
    (Some "Would you like to enable Cross-Origin Resource Sharing (CORS) for the image handler API? Select 'Yes' if so.")
    (Some "String") (Some "No") None (Some yesNo).

Definition corsOriginProps : CfnParameterProps :=
  mkParameterProps
    (Some "If you selected 'Yes' above, please specify an origin value here. A wildcard (*) value will support any origin. We recommend specifying an origin (i.e. https://example.domain) to restrict cross-site access to your API.")
    (Some "String") (Some "*") None None.

Definition sourceBucketsProps : CfnParameterProps :=
  mkParameterProps
    (Some "(Required) List the buckets (comma-separated) within your account that contain original image files. If you plan to use Thumbor or Custom image requests with this solution, the source bucket for those requests will be the first bucket listed in this field.")
    (Some "String") (Some "defaultBucket, bucketNo2, bucketNo3, ...")
    (Some ".+") None.

Definition logRetentionPeriodProps : CfnParameterProps :=
  mkParameterProps
    (Some "This solution automatically logs events to Amazon CloudWatch. Select the amount of time for CloudWatch logs from this solution to be retained (in days).")
    (Some "Number") (Some "1") None (Some retentionDays).

Definition autoWebPProps : CfnParameterProps :=
  mkParameterProps
    (Some "Would you like to enable automatic WebP based on accept headers? Select 'Yes' if so.")
    (Some "String") (Some "No") None (Some yesNo).

Definition enableSignatureProps : CfnParameterProps :=
  mkParameterProps
    (Some "Would you like to enable the signature? If so, select 'Yes' and provide SecretsManagerSecret and SecretsManagerKey values.")
    (Some "String") (Some "No") None (Some yesNo).

Definition secretsManagerProps : CfnParameterProps :=
  mkParameterProps
    (Some "The name of AWS Secrets Manager secret. You need to create your secret under this name.")
    (Some "String") (Some "") None None.

Definition secretsManagerKeyProps : CfnParameterProps :=
  mkParameterProps
    (Some "The name of AWS Secrets Manager secret key. You need to create secret key with this key name. The secret value would be used to check signature.")
    (Some "String") (Some "") None None.

Definition enableDefaultFallbackImageProps : CfnParameterProps :=
  mkParameterProps
    (Some "Would you like to enable the default fallback image? If so, select 'Yes' and provide FallbackImageS3Bucket and FallbackImageS3Key values.")
    (Some "String") (Some "No") None (Some yesNo).

Definition fallbackImageS3BucketProps : CfnParameterProps :=
  mkParameterProps
    (Some "The name of the Amazon S3 bucket which contains the default fallback image. e.g. my-fallback-image-bucket")
    (Some "String") (Some "") None None.

Definition fallbackImageS3KeyProps : CfnParameterProps :=
  mkParameterProps
    (Some "The name of the default fallback image object key including prefix. e.g. prefix/image.jpg")
    (Some "String") (Some "") None None.

(** The descriptions of the eight outputs. *)
Definition apiEndpointDescription : string :=
  "Link to API endpoint for sending image requests to.".

Definition apiEndpointCNAMEDescription : string :=
  "CloudFront CNAME for API Endpoint. Configure your DNS resolver and point domain to this address".

Definition demoUrlDescription : string :=
  "Link to the demo user interface for the solution.".

Definition demoUrlCNAMEDescription : string :=
  "CloudFront CNAME for DemoUI. Configure your DNS resolver and point domain to this address".

Definition sourceBucketsDescription : string :=
  "Amazon S3 bucket location containing original image files.".

Definition corsEnabledDescription : string :=
  "Indicates whether Cross-Origin Resource Sharing (CORS) has been enabled for the image handler API.".

Definition corsOriginDescription : string :=
  "Origin value returned in the Access-Control-Allow-Origin header of image handler API responses.".

Definition logRetentionPeriodDescription : string :=
  "Number of days for event logs from Lambda to be retained in CloudWatch.".

(** The body of the constructor, statement by statement.
    [newServerlessImageHandler] stands for
    [new ServerlessImageHandler(this, 'ServerlessImageHandler', sihProps)]. *)
Definition constructor (env : gmap string string)
    (newServerlessImageHandler : ServerlessImageHandlerProps -> ServerlessImageHandler)
  : Synth unit :=
  let region := IS_CHINA_REGION env in
  (* CFN parameters *)
  let* apiDomain := cfnParamIf region "ApiDomain" apiDomainProps in
  let* apiCertificateIamId := cfnParamIf region "ApiCertificateIamId" apiCertificateIamIdProps in
  let* deployDemoUiParameter := cfnParam "DeployDemoUI" deployDemoUiProps in
  let* demoUIDomain := cfnParamIf region "DemoUIDomain" demoUIDomainProps in
  let* demoUICertificateIamId := cfnParamIf region "DemoUICertificateIamId" demoUICertificateIamIdProps in
  let* corsEnabledParameter := cfnParam "CorsEnabled" corsEnabledProps in
  let* corsOriginParameter := cfnParam "CorsOrigin" corsOriginProps in
  let* sourceBucketsParameter := cfnParam "SourceBuckets" sourceBucketsProps in
  let* logRetentionPeriodParameter := cfnParam "LogRetentionPeriod" logRetentionPeriodProps in
  let* autoWebPParameter := cfnParam "AutoWebP" autoWebPProps in
  let* enableSignatureParameter := cfnParam "EnableSignature" enableSignatureProps in
  let* secretsManagerParameter := cfnParam "SecretsManagerSecret" secretsManagerProps in
  let* secretsManagerKeyParameter := cfnParam "SecretsManagerKey" secretsManagerKeyProps in
  let* enableDefaultFallbackImageParameter := cfnParam "EnableDefaultFallbackImage" enableDefaultFallbackImageProps in
  let* fallbackImageS3BucketParameter := cfnParam "FallbackImageS3Bucket" fallbackImageS3BucketProps in
  let* fallbackImageS3KeyParameter := cfnParam "FallbackImageS3Key" fallbackImageS3KeyProps in
  (* Serverless Image Handler props *)
  let sihProps :=
    mkSihProps apiDomain apiCertificateIamId deployDemoUiParameter
      demoUIDomain demoUICertificateIamId
      corsEnabledParameter corsOriginParameter sourceBucketsParameter
      logRetentionPeriodParameter autoWebPParameter enableSignatureParameter
      secretsManagerParameter secretsManagerKeyParameter
      enableDefaultFallbackImageParameter fallbackImageS3BucketParameter
      fallbackImageS3KeyParameter in
  (* CFN description, template format version, metadata *)
  setDescription (templateDescription env);;
  setTemplateFormatVersion "2010-09-09";;
  setMetadata (parameterGroups region sihProps);;
  (* Mappings *)
  newCfnMapping "Send" [("AnonymousUsage", [("Data", "Yes")])];;
  (* Serverless Image Handler Construct *)
  let serverlessImageHander := newServerlessImageHandler sihProps in
  addChild "ServerlessImageHandler" (ElImageHandler serverlessImageHander);;
  (* Outputs *)
  cfnOutput "ApiEndpoint"
    (mkOutputProps
       (Some apiEndpointDescription)
       (match tryFindChild serverlessImageHander "ApiCertificateCondition" with
        | Some _ =>
            FnConditionIf "ApiCertificateCondition"
              (FnSub "https://${ApiDomain}") (FnSub "http://${ApiDomain}")
        | None => FnSub "https://${ImageHandlerDistribution.DomainName}"
        end)
       None);;
  cfnOutputIf region "ApiEndpointCNAME"
    (mkOutputProps
       (Some apiEndpointCNAMEDescription)
       (FnSub "${ImageHandlerDistribution.DomainName}")
       None);;
  let demoUrlValue :=
    match tryFindChild serverlessImageHander "DemoUICertificateCondition" with
    | Some _ =>
        FnConditionIf "DemoUICertificateCondition"
          (FnSub "https://${DemoUIDomain}/index.html")
          (FnSub "http://${DemoUIDomain}/index.html")
    | None => FnSub "https://${DemoDistribution.DomainName}/index.html"
    end in
  let* deployDemoUICondition :=
    findChild serverlessImageHander "DeployDemoUICondition" in
  cfnOutput "DemoUrl"
    (mkOutputProps
       (Some demoUrlDescription)
       demoUrlValue
       (Some deployDemoUICondition));;
  cfnOutputIf region "DemoUrlCNAME"
    (mkOutputProps
       (Some demoUrlCNAMEDescription)
       (FnSub "${DemoDistribution.DomainName}")
       None);;
  let* sourceBucketsOutput := cfnOutput "SourceBucketsOutput"
    (mkOutputProps
       (Some sourceBucketsDescription)
       (valueAsString sourceBucketsParameter)
       None) in
  overrideLogicalId sourceBucketsOutput "SourceBuckets";;
  let* corsEnabledOutput := cfnOutput "CorsEnabledOutput"
    (mkOutputProps
       (Some corsEnabledDescription)
       (valueAsString corsEnabledParameter)
       None) in
  overrideLogicalId corsEnabledOutput "CorsEnabled";;
  let* enableCorsCondition :=
    findChild serverlessImageHander "EnableCorsCondition" in
  let* corsOriginOutput := cfnOutput "CorsOriginOutput"
    (mkOutputProps
       (Some corsOriginDescription)
       (valueAsString corsOriginParameter)
       (Some enableCorsCondition)) in
  overrideLogicalId corsOriginOutput "CorsOrigin";;
  let* logRetentionPeriodOutput := cfnOutput "LogRetentionPeriodOutput"
    (mkOutputProps
       (Some logRetentionPeriodDescription)
       (FnRef "LogRetentionPeriod")
       None) in
  overrideLogicalId logRetentionPeriodOutput "LogRetentionPeriod".

(** One synthesis pass: [new ConstructsStack(scope, id, props)] on a
    fresh stack. *)
Definition ConstructsStack (env : gmap string string)
    (newServerlessImageHandler : ServerlessImageHandlerProps -> ServerlessImageHandler)
  : Result Stack :=
  match constructor env newServerlessImageHandler emptyStack with
  | Ok (_, st) => Ok st
  | Failed e => Failed e
  end.

(** ** Reading a synthesized stack *)

Definition asParameter (e : CfnElement) : option CfnParameter :=
  match e with ElParameter p => Some p | _ => None end.

Definition asOutput (e : CfnElement) : option CfnOutput :=
  match e with ElOutput o => Some o | _ => None end.

Definition asImageHandler (e : CfnElement) : option ServerlessImageHandler :=
  match e with ElImageHandler h => Some h | _ => None end.

(** The parameter registry and the outputs of the stack, in declaration
    order, as the template lists them under [Parameters] and [Outputs]. *)
Definition parametersOf (st : Stack) : list CfnParameter :=
  omap (fun c => asParameter (snd c)) (children st).

Definition outputsOf (st : Stack) : list CfnOutput :=
  omap (fun c => asOutput (snd c)) (children st).

(** Both sections of the template are keyed by logical id. *)
Definition findParameter (name : string) (st : Stack) : option CfnParameter :=
  List.find (fun p => bool_decide (logicalId p = name)) (parametersOf st).

Definition findOutput (name : string) (st : Stack) : option CfnOutput :=
  List.find (fun o => bool_decide (output_logicalId o = name)) (outputsOf st).

(** The image handler the stack holds. *)
Definition imageHandlerOf (st : Stack) : option ServerlessImageHandler :=
  match findElement "ServerlessImageHandler" (children st) with
  | Some e => asImageHandler e
  | None => None
  end.

(** The condition names a value and an output refer to. *)
Fixpoint valueConditions (v : CfnValue) : list string :=
  match v with
  | Literal _ | FnRef _ | FnSub _ => []
  | FnConditionIf c a b => c :: valueConditions a ++ valueConditions b
  end.

Definition outputConditions (o : CfnOutput) : list string :=
  match output_condition (output_props o) with
  | Some c => [c]
  | None => []
  end ++ valueConditions (output_value (output_props o)).

(** What two passes are compared on: every element declared, in order
    (parameters, mapping, image handler, outputs with their identifiers,
    values and conditions) and the parameter groups. *)
Definition assembly (st : Stack)
  : list (string * CfnElement) * option (list (option ParameterGroup)) :=
  (children st, metadata (templateOptions st)).

Definition mapResult {A B} (f : A -> B) (r : Result A) : Result B :=
  match r with
  | Ok a => Ok (f a)
  | Failed e => Failed e
  end.

(** ** Deployment of a synthesized template

    Deployment is done by the templating service, outside the repository.
    What the statements on the rendered result need of it is taken from the
    spec's data model: every declared parameter takes the value supplied
    for it or else its default; an output without a condition is emitted,
    one whose condition evaluates to false is omitted; references and
    deploy-time branches in a value are resolved.  Validation of the values
    against allowed sets and patterns only narrows the assignments that
    reach this point, so none is modelled: what is proved holds for every
    assignment. *)

Definition parameterValue (supplied : gmap string string) (p : CfnParameter)
  : option string :=
  match supplied !! logicalId p with
  | Some v => Some v
  | None => param_default (param_props p)
  end.

Fixpoint resolveParameters (supplied : gmap string string)
    (ps : list CfnParameter) : option (gmap string string) :=
  match ps with
  | [] => Some ∅
  | p :: ps' =>
      v ← parameterValue supplied p;
      m ← resolveParameters supplied ps';
      Some (<[logicalId p := v]> m)
  end.

(** [Fn::Sub]: a placeholder naming a parameter is replaced by its value;
    any other placeholder (an attribute of a deployed resource) is kept as
    it stands.  [pending] holds the name being read inside a placeholder. *)
Fixpoint substitute (params : gmap string string) (body : string)
    (pending : option string) : string :=
  match body with
  | EmptyString =>
      match pending with
      | Some name => "${" +:+ name
      | None => ""
      end
  | String c rest =>
      match pending with
      | Some name =>
          if decide (c = "}"%char) then
            match params !! name with
            | Some v => v
            | None => "${" +:+ name +:+ "}"
            end +:+ substitute params rest None
          else substitute params rest (Some (name +:+ String c ""))
      | None =>
          if decide (c = "$"%char) then
            match rest with
            | String "{"%char rest' => substitute params rest' (Some "")
            | _ => String c (substitute params rest None)
            end
          else String c (substitute params rest None)
      end
  end.

(** Operands of a condition: no deploy-time branch is allowed there. *)
Definition evalOperand (params : gmap string string) (v : CfnValue)
  : option string :=
  match v with
  | Literal s => Some s
  | FnRef name => params !! name
  | FnSub body => Some (substitute params body None)
  | FnConditionIf _ _ _ => None
  end.

Fixpoint evalCondition (params : gmap string string)
    (c : CfnConditionExpression) : option bool :=
  match c with
  | ConditionEquals a b =>
      x ← evalOperand params a;
      y ← evalOperand params b;
      Some (bool_decide (x = y))
  | ConditionNot c' => negb <$> evalCondition params c'
  | ConditionAnd c1 c2 =>
      x ← evalCondition params c1;
      y ← evalCondition params c2;
      Some (x && y)
  | ConditionOr c1 c2 =>
      x ← evalCondition params c1;
      y ← evalCondition params c2;
      Some (x || y)
  end.

Fixpoint evalValue (params : gmap string string)
    (conditions : gmap string CfnConditionExpression) (v : CfnValue)
  : option string :=
  match v with
  | Literal s => Some s
  | FnRef name => params !! name
  | FnSub body => Some (substitute params body None)
  | FnConditionIf c a b =>
      e ← conditions !! c;
      holds ← evalCondition params e;
      if holds : bool then evalValue params conditions a
      else evalValue params conditions b
  end.

(** One output: [Some None] when its condition is false. *)
Definition renderOutput (params : gmap string string)
    (conditions : gmap string CfnConditionExpression) (o : CfnOutput)
  : option (option (string * string)) :=
  emitted ←
    match output_condition (output_props o) with
    | Some c => e ← conditions !! c; evalCondition params e
    | None => Some true
    end;
  if emitted : bool then
    v ← evalValue params conditions (output_value (output_props o));
    Some (Some (output_logicalId o, v))
  else Some None.

Fixpoint renderOutputs (params : gmap string string)
    (conditions : gmap string CfnConditionExpression) (os : list CfnOutput)
  : option (list (string * string)) :=
  match os with
  | [] => Some []
  | o :: os' =>
      r ← renderOutput params conditions o;
      rs ← renderOutputs params conditions os';
      Some (match r with Some kv => kv :: rs | None => rs end)
  end.

(** Modelled from the spec: the deploy-time result of a template.  The
    outputs of the deployed stack, by logical id; nothing is rendered when
    a declared parameter has no value or a condition cannot be evaluated. *)
Definition deploy (st : Stack) (supplied : gmap string string)
  : option (list (string * string)) :=
  h ← imageHandlerOf st;
  params ← resolveParameters supplied (parametersOf st);
  renderOutputs params (node_children h) (outputsOf st).

Definition renderedValue (name : string) (outs : list (string * string))
  : option string :=
  snd <$> List.find (fun kv => bool_decide (fst kv = name)) outs.

(** Modelled from the spec: the image handler construct of
    [./serverless-image-handler] is not among the sources.  The spec has
    it decide on parameter values: its "deploy demo UI" condition holds
    when [DeployDemoUI] is [Yes], its CORS condition when [CorsEnabled] is
    [Yes]; the two certificate conditions exist in the region-restricted
    path only, and hold when a certificate id was given. *)
Definition specImageHandler (props : ServerlessImageHandlerProps)
  : ServerlessImageHandler :=
  let required : gmap string CfnConditionExpression :=
    <["DeployDemoUICondition" :=
        ConditionEquals (valueAsString (deployDemoUiParameter props)) (Literal "Yes")]>
    (<["EnableCorsCondition" :=
        ConditionEquals (valueAsString (corsEnabledParameter props)) (Literal "Yes")]>
     ∅) in
  let withApi :=
    match apiCertificateIamId props with
    | Some p =>
        <["ApiCertificateCondition" :=
            ConditionNot (ConditionEquals (valueAsString p) (Literal ""))]> required
    | None => required
    end in
  mkImageHandler
    match demoUICertificateIamId props with
    | Some p =>
        <["DemoUICertificateCondition" :=
            ConditionNot (ConditionEquals (valueAsString p) (Literal ""))]> withApi
    | None => withApi
    end.

(** A parameter is declared under [name] with this type, default, allowed
    values and allowed pattern. *)
Definition declaredAs (st : Stack) (name type : string)
    (default : option string) (allowedValues : option (list string))
    (allowedPattern : option string) : Prop :=
  exists p,
    findParameter name st = Some p /\
    param_type (param_props p) = Some type /\
    param_default (param_props p) = default /\
    param_allowedValues (param_props p) = allowedValues /\
    param_allowedPattern (param_props p) = allowedPattern.

(** The rows the spec's table of declared parameters gives for the
    parameters declared in both modes: name, type, default, allowed values
    and pattern.  [SourceBuckets] is "required" there, that is, without a
    default; the allowed set of [LogRetentionPeriod] is the one the table
    calls fixed. *)
Definition specParameterTable
  : list (string * string * option string * option (list string)
          * option string) :=
  [ ("DeployDemoUI", "String", Some "Yes", Some ["Yes"; "No"], None);
    ("CorsEnabled", "String", Some "No", Some ["Yes"; "No"], None);
    ("CorsOrigin", "String", Some "*", None, None);
    ("SourceBuckets", "String", None, None, Some ".+");
    ("LogRetentionPeriod", "Number", Some "1",
     Some ["1"; "3"; "5"; "7"; "14"; "30"; "60"; "90"; "120"; "150"; "180";
           "365"; "400"; "545"; "731"; "1827"; "3653"], None);
    ("AutoWebP", "String", Some "No", Some ["Yes"; "No"], None);
    ("EnableSignature", "String", Some "No", Some ["Yes"; "No"], None);
    ("SecretsManagerSecret", "String", Some "", None, None);
    ("SecretsManagerKey", "String", Some "", None, None);
    ("EnableDefaultFallbackImage", "String", Some "No", Some ["Yes"; "No"],
     None);
    ("FallbackImageS3Bucket", "String", Some "", None, None);
    ("FallbackImageS3Key", "String", Some "", None, None) ].

Definition rowHolds (st : Stack)
    (row : string * string * option string * option (list string)
           * option string) : Prop :=
  let '(name, type, default, allowedValues, allowedPattern) := row in
  declaredAs st name type default allowedValues allowedPattern.

(** The value a deployment uses for the parameter [name]. *)
Definition valueInEffect (st : Stack) (supplied : gmap string string)
    (name : string) : option string :=
  p ← findParameter name st; parameterValue supplied p.

(** Two passes used as examples below: outside and inside region mode,
    both with the image handler of the spec. *)
Definition regionEnv : gmap string string := {[ "CHINA_REGION" := "cn-north-1" ]}.

Definition plainStack : Stack :=
  Eval vm_compute in
    match ConstructsStack ∅ specImageHandler with
    | Ok st => st
    | Failed _ => emptyStack
    end.

Definition regionStack : Stack :=
  Eval vm_compute in
    match ConstructsStack regionEnv specImageHandler with
    | Ok st => st
    | Failed _ => emptyStack
    end.

(** A second region-mode environment, and a deployment of [plainStack] that
    declines the demo UI and enables CORS for one origin. *)
Definition versionedRegionEnv : gmap string string :=
  {[ "CHINA_REGION" := "1"; "VERSION" := "v5.1.0" ]}.

Definition optOut : gmap string string :=
  {[ "DeployDemoUI" := "No"; "CorsEnabled" := "Yes";
     "CorsOrigin" := "https://example.com" ]}.

Definition optOutOutputs : list (string * string) :=
  Eval vm_compute in default [] (deploy plainStack optOut).

(** An image handler that exposes no condition at all, and three handles
    for [paramGroup], the middle one absent. *)
Definition bareImageHandler (props : ServerlessImageHandlerProps)
  : ServerlessImageHandler :=
  mkImageHandler ∅.

Definition sampleHandles : list (option CfnParameter) :=
  [Some (mkParameter "DeployDemoUI" deployDemoUiProps); None;
   Some (mkParameter "DemoUICertificateIamId" demoUICertificateIamIdProps)].

(** ** Further views of a property bag and a stack *)

(** The handles of a property bag, in the order of [sihProps]. *)
Definition handlesOf (props : ServerlessImageHandlerProps)
  : list (option CfnParameter) :=
  [ apiDomain props; apiCertificateIamId props;
    Some (deployDemoUiParameter props);
    demoUIDomain props; demoUICertificateIamId props;
    Some (corsEnabledParameter props); Some (corsOriginParameter props);
    Some (sourceBucketsParameter props);
    Some (logRetentionPeriodParameter props);
    Some (autoWebPParameter props); Some (enableSignatureParameter props);
    Some (secretsManagerParameter props);
    Some (secretsManagerKeyParameter props);
    Some (enableDefaultFallbackImageParameter props);
    Some (fallbackImageS3BucketParameter props);
    Some (fallbackImageS3KeyParameter props) ].

(** The parameters a value refers to with [Ref]. *)
Fixpoint valueRefs (v : CfnValue) : list string :=
  match v with
  | FnRef name => [name]
  | FnConditionIf _ a b => valueRefs a ++ valueRefs b
  | Literal _ | FnSub _ => []
  end.

(** The construct ids of a stack, and what the construct library keeps
    true of them: no id is empty and none is used twice. *)
Definition constructIds (st : Stack) : list string := map fst (children st).

Definition distinctIds (st : Stack) : Prop :=
  NoDup (constructIds st) /\ "" ∉ constructIds st.

(** The members of all groups of a [ParameterGroups] list, in order. *)
Definition groupMembers (groups : list (option ParameterGroup)) : list string :=
  concat (map (fun g => match g with Some g => Parameters g | None => [] end)
              groups).

(** An image handler that exposes both certificate conditions whatever
    handles it is given, and the pass outside region mode with it. *)
Definition certifiedImageHandler (props : ServerlessImageHandlerProps)
  : ServerlessImageHandler :=
  mkImageHandler
    (<["ApiCertificateCondition" :=
         ConditionEquals (Literal "Yes") (Literal "Yes")]>
     (<["DemoUICertificateCondition" :=
         ConditionEquals (Literal "Yes") (Literal "Yes")]>
      (node_children (specImageHandler props)))).

Definition certifiedStack : Stack :=
  Eval vm_compute in
    match ConstructsStack ∅ certifiedImageHandler with
    | Ok st => st
    | Failed _ => emptyStack
    end.

(** * Properties *)

(** ** The handle functions *)

Lemma tryFindChild_Some h name c :
  tryFindChild h name = Some c -> c = name /\ is_Some (node_children h !! name).
Proof.
  unfold tryFindChild. destruct (node_children h !! name) eqn:E; [|discriminate].
  intros [= <-]. split; [reflexivity | by eexists].
Qed.

Lemma tryFindChild_None h name :
  tryFindChild h name = None <-> node_children h !! name = None.
Proof.
  unfold tryFindChild. destruct (node_children h !! name); split; congruence.
Qed.

Lemma addChild_Ok id e st u st' :
  addChild id e st = Ok (u, st') ->
  id ≠ "" /\ findElement id (children st) = None /\
  st' = mkStack (children st ++ [(id, e)]) (templateOptions st).
Proof.
  unfold addChild. destruct (decide (id = "")); [discriminate|].
  destruct (findElement id (children st)); [discriminate|].
  intros [= _ <-]. done.
Qed.

Lemma addChild_fresh id e st :
  id ≠ "" -> findElement id (children st) = None ->
  addChild id e st = Ok (tt, mkStack (children st ++ [(id, e)]) (templateOptions st)).
Proof.
  intros Hne Hfresh. unfold addChild.
  destruct (decide (id = "")); [done|]. by rewrite Hfresh.
Qed.

Lemma findElement_app id cs cs' :
  findElement id (cs ++ cs') =
  match findElement id cs with
  | Some e => Some e
  | None => findElement id cs'
  end.
Proof.
  induction cs as [|[id' e] cs IH]; simpl; [reflexivity|].
  destruct (decide (id' = id)); [reflexivity | exact IH].
Qed.

Lemma findElement_added id e cs :
  findElement id cs = None -> findElement id (cs ++ [(id, e)]) = Some e.
Proof.
  intros H. rewrite findElement_app, H. simpl.
  destruct (decide (id = id)); [reflexivity | done].
Qed.

(** A handle made by the constructor never has an empty logical id, so
    the truthiness filter of [paramGroup] drops absent handles only. *)
Lemma newCfnParameter_handle id props st p st' :
  newCfnParameter id props st = Ok (p, st') ->
  p = mkParameter id props /\ logicalId p ≠ "".
Proof.
  unfold newCfnParameter, bind, ret.
  destruct (addChild id _ st) as [[u st1]|] eqn:E; [|discriminate].
  intros [= <- _]. apply addChild_Ok in E as [Hne _]. done.
Qed.

(** ** Running a pass

    The result of a pass depends on the environment through the region
    flag and the version, and on the image handler through the four names
    looked up in it.  [pass_cases] splits a successful pass on these. *)

Ltac split_children :=
  repeat match goal with
  | H : context [match tryFindChild ?h ?n with _ => _ end] |- _ =>
      destruct (tryFindChild h n) eqn:?
  end.

Ltac pass_cbv H :=
  cbv -[tryFindChild templateDescription
        apiDomainProps apiCertificateIamIdProps deployDemoUiProps
        demoUIDomainProps demoUICertificateIamIdProps corsEnabledProps
        corsOriginProps sourceBucketsProps logRetentionPeriodProps
        autoWebPProps enableSignatureProps secretsManagerProps
        secretsManagerKeyProps enableDefaultFallbackImageProps
        fallbackImageS3BucketProps fallbackImageS3KeyProps
        apiEndpointDescription apiEndpointCNAMEDescription
        demoUrlDescription demoUrlCNAMEDescription sourceBucketsDescription
        corsEnabledDescription corsOriginDescription
        logRetentionPeriodDescription signatureLabel fallbackLabel] in H.

Ltac stack_cbv :=
  cbv -[tryFindChild templateDescription lookup is_Some node_children
        apiDomainProps apiCertificateIamIdProps deployDemoUiProps
        demoUIDomainProps demoUICertificateIamIdProps corsEnabledProps
        corsOriginProps sourceBucketsProps logRetentionPeriodProps
        autoWebPProps enableSignatureProps secretsManagerProps
        secretsManagerKeyProps enableDefaultFallbackImageProps
        fallbackImageS3BucketProps fallbackImageS3KeyProps
        apiEndpointDescription apiEndpointCNAMEDescription
        demoUrlDescription demoUrlCNAMEDescription sourceBucketsDescription
        corsEnabledDescription corsOriginDescription
        logRetentionPeriodDescription signatureLabel fallbackLabel].

Ltac name_handler H :=
  match type of H with
  | context [tryFindChild ?h _] =>
      let child := fresh "child" in
      let Hchild := fresh "Hchild" in
      remember h as child eqn:Hchild
  end.

Ltac pass_cases H :=
  pass_cbv H; name_handler H; split_children;
  try discriminate H;
  injection H as <-.

Ltac by_region env H :=
  unfold ConstructsStack, constructor in H;
  destruct (IS_CHINA_REGION env) eqn:?;
  pass_cases H.

(** A pass succeeds as soon as the image handler has the two children
    fetched with [findChild]: no construct id is declared twice. *)
Lemma ConstructsStack_succeeds env mk :
  (forall props,
     is_Some (tryFindChild (mk props) "DeployDemoUICondition") /\
     is_Some (tryFindChild (mk props) "EnableCorsCondition")) ->
  exists st, ConstructsStack env mk = Ok st.
Proof.
  intros Hdefined.
  destruct (ConstructsStack env mk) as [st|e] eqn:H; [by exists st|].
  exfalso. unfold ConstructsStack, constructor in H.
  destruct (IS_CHINA_REGION env).
  all: pass_cbv H.
  all: match type of H with
       | context [tryFindChild (_ ?P) _] =>
           destruct (Hdefined P) as [[? Hdemo] [? Hcors]]
       end.
  all: rewrite Hdemo, Hcors in H.
  all: split_children; discriminate H.
Qed.

(** ** C1: region-only parameters and outputs *)

(** C1.  In a pass outside region mode none of [ApiDomain],
    [ApiCertificateIamId], [DemoUIDomain], [DemoUICertificateIamId] is in
    the parameter registry and neither [ApiEndpointCNAME] nor
    [DemoUrlCNAME] is among the outputs; in a pass in region mode all four
    parameters are registered and both outputs are declared. *)
Theorem region_only_elements env mk st :
  ConstructsStack env mk = Ok st ->
  (IS_CHINA_REGION env = false ->
     Forall (fun name => findParameter name st = None)
       ["ApiDomain"; "ApiCertificateIamId"; "DemoUIDomain";
        "DemoUICertificateIamId"] /\
     findOutput "ApiEndpointCNAME" st = None /\
     findOutput "DemoUrlCNAME" st = None) /\
  (IS_CHINA_REGION env = true ->
     Forall (fun name => is_Some (findParameter name st))
       ["ApiDomain"; "ApiCertificateIamId"; "DemoUIDomain";
        "DemoUICertificateIamId"] /\
     is_Some (findOutput "ApiEndpointCNAME" st) /\
     is_Some (findOutput "DemoUrlCNAME" st)).
Proof.
  intros H. by_region env H.
  all: split; intros Hflag; try discriminate Hflag.
  all: split; [|split].
  all: repeat match goal with |- Forall _ _ => constructor end.
  all: try reflexivity.
  all: eexists; reflexivity.
Qed.

Lemma region_only_elements_witness :
  Forall (fun name => is_Some (findParameter name regionStack))
    ["ApiDomain"; "ApiCertificateIamId"; "DemoUIDomain";
     "DemoUICertificateIamId"] /\
  is_Some (findOutput "ApiEndpointCNAME" regionStack) /\
  is_Some (findOutput "DemoUrlCNAME" regionStack).
Proof.
  apply (region_only_elements regionEnv specImageHandler regionStack).
  - vm_compute. reflexivity.
  - vm_compute. reflexivity.
Defined.

(** ** C2: the values of [ApiEndpoint] and [DemoUrl] *)

(** C2.  The value of the [ApiEndpoint] output is a deploy-time branch on
    [ApiCertificateCondition] between the https and the http URL of
    [ApiDomain] when the image handler has a child of that name, and the
    https URL of the distribution's domain name otherwise; the value of
    [DemoUrl] is chosen in the same way on [DemoUICertificateCondition],
    between the [index.html] URLs of [DemoUIDomain] and that of the demo
    distribution. *)
Theorem endpoint_value_selection env mk st :
  ConstructsStack env mk = Ok st ->
  exists h api demo,
    imageHandlerOf st = Some h /\
    findOutput "ApiEndpoint" st = Some api /\
    findOutput "DemoUrl" st = Some demo /\
    output_value (output_props api) =
      match tryFindChild h "ApiCertificateCondition" with
      | Some _ =>
          FnConditionIf "ApiCertificateCondition"
            (FnSub "https://${ApiDomain}") (FnSub "http://${ApiDomain}")
      | None => FnSub "https://${ImageHandlerDistribution.DomainName}"
      end /\
    output_value (output_props demo) =
      match tryFindChild h "DemoUICertificateCondition" with
      | Some _ =>
          FnConditionIf "DemoUICertificateCondition"
            (FnSub "https://${DemoUIDomain}/index.html")
            (FnSub "http://${DemoUIDomain}/index.html")
      | None => FnSub "https://${DemoDistribution.DomainName}/index.html"
      end.
Proof.
  intros H. by_region env H.
  all: eexists _, _, _.
  all: split; [reflexivity|]; split; [reflexivity|]; split; [reflexivity|].
  all: cbn [output_value output_props].
  all: repeat match goal with
         | E : tryFindChild _ _ = _ |- _ => rewrite E; clear E
         end.
  all: split; reflexivity.
Qed.

Lemma endpoint_value_selection_witness :
  exists h api demo,
    imageHandlerOf plainStack = Some h /\
    findOutput "ApiEndpoint" plainStack = Some api /\
    findOutput "DemoUrl" plainStack = Some demo /\
    output_value (output_props api) =
      match tryFindChild h "ApiCertificateCondition" with
      | Some _ =>
          FnConditionIf "ApiCertificateCondition"
            (FnSub "https://${ApiDomain}") (FnSub "http://${ApiDomain}")
      | None => FnSub "https://${ImageHandlerDistribution.DomainName}"
      end /\
    output_value (output_props demo) =
      match tryFindChild h "DemoUICertificateCondition" with
      | Some _ =>
          FnConditionIf "DemoUICertificateCondition"
            (FnSub "https://${DemoUIDomain}/index.html")
            (FnSub "http://${DemoUIDomain}/index.html")
      | None => FnSub "https://${DemoDistribution.DomainName}/index.html"
      end.
Proof.
  apply (endpoint_value_selection ∅ specImageHandler plainStack).
  vm_compute. reflexivity.
Defined.

Ltac use_condition :=
  match goal with
  | E : is_Some (node_children _ !! ?c) |- is_Some (node_children _ !! ?c) =>
      exact E
  end.

(** ** C3: references to conditions of the image handler *)

(** C3.  A pass whose image handler lacks [DeployDemoUICondition] or
    [EnableCorsCondition], the two names the constructor refers to without
    a guard, fails with the missing child and produces no stack; and in
    the stack of every pass that succeeds, each condition name an output
    refers to, as its condition or in a deploy-time branch of its value,
    is a condition the image handler declares. *)
Theorem condition_references_checked env mk :
  (forall name,
     name ∈ ["DeployDemoUICondition"; "EnableCorsCondition"] ->
     (forall props, tryFindChild (mk props) name = None) ->
     exists missing,
       missing ∈ ["DeployDemoUICondition"; "EnableCorsCondition"] /\
       ConstructsStack env mk = Failed (NoChildWithId missing)) /\
  (forall st,
     ConstructsStack env mk = Ok st ->
     exists h,
       imageHandlerOf st = Some h /\
       Forall (fun o =>
                 Forall (fun c => is_Some (node_children h !! c))
                        (outputConditions o))
              (outputsOf st)).
Proof.
  split.
  - intros name Hname Hmissing.
    destruct (ConstructsStack env mk) as [st|e] eqn:H.
    + exfalso. by_region env H.
      all: subst child.
      all: repeat (apply elem_of_cons in Hname as [->|Hname]);
             [| |by apply elem_of_nil in Hname].
      all: match goal with
           | E : tryFindChild _ ?n = Some _ |- _ =>
               rewrite (Hmissing _ : tryFindChild _ n = None) in E; discriminate E
           end.
    + unfold ConstructsStack, constructor in H.
      destruct (IS_CHINA_REGION env).
      all: pass_cbv H; name_handler H; split_children.
      all: first [discriminate H | injection H as <-].
      all: eexists; (split; [|reflexivity]).
      all: apply list_elem_of_In; simpl; auto.
  - intros st H. by_region env H.
    all: eexists; split; [reflexivity|].
    all: repeat match goal with
           | E : tryFindChild _ _ = Some _ |- _ =>
               apply tryFindChild_Some in E as [-> ?]
           end.
    all: unfold outputsOf; cbn [children omap list_omap snd asOutput].
    all: repeat match goal with |- Forall _ _ => constructor end.
    all: use_condition.
Qed.

Lemma condition_references_checked_witness :
  (exists missing,
     missing ∈ ["DeployDemoUICondition"; "EnableCorsCondition"] /\
     ConstructsStack ∅ bareImageHandler = Failed (NoChildWithId missing)) /\
  (exists h,
     imageHandlerOf regionStack = Some h /\
     Forall (fun o =>
               Forall (fun c => is_Some (node_children h !! c))
                      (outputConditions o))
            (outputsOf regionStack)).
Proof.
  split.
  - apply (proj1 (condition_references_checked ∅ bareImageHandler)
             "EnableCorsCondition").
    + apply list_elem_of_In. vm_compute. auto.
    + intros props. vm_compute. reflexivity.
  - apply (proj2 (condition_references_checked regionEnv specImageHandler)).
    vm_compute. reflexivity.
Defined.

(** ** C4: outputs of the deployed stack

    Lemmas on the deployment model first. *)

Lemma valueInEffect_found st supplied name p :
  findParameter name st = Some p ->
  valueInEffect st supplied name = parameterValue supplied p.
Proof. unfold valueInEffect. intros ->. reflexivity. Qed.

Lemma resolveParameters_lookup supplied ps m name :
  resolveParameters supplied ps = Some m ->
  m !! name =
  (p ← List.find (fun p => bool_decide (logicalId p = name)) ps;
   parameterValue supplied p).
Proof.
  revert m. induction ps as [|p ps IH]; simpl; intros m.
  - intros [= <-]. apply lookup_empty.
  - destruct (parameterValue supplied p) as [v|] eqn:Hv; [|discriminate].
    destruct (resolveParameters supplied ps) as [m'|]; [|discriminate].
    simpl. intros [= <-]. case_bool_decide as Hname.
    + subst name. rewrite lookup_insert_eq. simpl. by rewrite Hv.
    + rewrite lookup_insert_ne by exact Hname. by apply IH.
Qed.

Lemma resolveParameters_defined supplied ps m p :
  resolveParameters supplied ps = Some m ->
  p ∈ ps -> is_Some (m !! logicalId p).
Proof.
  revert m. induction ps as [|q ps IH]; simpl; intros m Hres Hin.
  - by apply elem_of_nil in Hin.
  - destruct (parameterValue supplied q) as [v|]; [|discriminate].
    destruct (resolveParameters supplied ps) as [m'|] eqn:Hm'; [|discriminate].
    simpl in Hres. injection Hres as <-.
    destruct (decide (logicalId q = logicalId p)) as [Heq|Hne].
    + rewrite Heq, lookup_insert_eq. by eexists.
    + rewrite lookup_insert_ne by exact Hne.
      apply elem_of_cons in Hin as [->|Hin]; [done|]. by apply IH.
Qed.

Lemma renderOutput_key params conditions o kv :
  renderOutput params conditions o = Some (Some kv) ->
  fst kv = output_logicalId o.
Proof.
  unfold renderOutput.
  destruct (match output_condition (output_props o) with
            | Some c => _ | None => _ end) as [[|]|]; simpl; try discriminate.
  destruct (evalValue _ _ _); simpl; [|discriminate].
  by intros [= <-].
Qed.

Lemma renderOutputs_absent params conditions os outs name :
  renderOutputs params conditions os = Some outs ->
  name ∉ map output_logicalId os ->
  renderedValue name outs = None.
Proof.
  revert outs. induction os as [|o os IH]; simpl; intros outs.
  - by intros [= <-].
  - destruct (renderOutput params conditions o) as [r|] eqn:Hr; [|discriminate].
    destruct (renderOutputs params conditions os) as [rs|]; [|discriminate].
    simpl. intros [= <-] Hnotin.
    apply not_elem_of_cons in Hnotin as [Hne Hnotin].
    specialize (IH rs eq_refl Hnotin).
    destruct r as [kv|]; [|exact IH].
    apply renderOutput_key in Hr. unfold renderedValue in *. simpl.
    case_bool_decide; [congruence | exact IH].
Qed.

Lemma renderOutputs_find params conditions os outs name o :
  NoDup (map output_logicalId os) ->
  renderOutputs params conditions os = Some outs ->
  List.find (fun o => bool_decide (output_logicalId o = name)) os = Some o ->
  exists r,
    renderOutput params conditions o = Some r /\
    renderedValue name outs = snd <$> r.
Proof.
  revert outs. induction os as [|o' os IH]; simpl; intros outs Hnodup.
  - discriminate.
  - apply NoDup_cons in Hnodup as [Hfresh Hnodup].
    destruct (renderOutput params conditions o') as [r|] eqn:Hr; [|discriminate].
    destruct (renderOutputs params conditions os) as [rs|] eqn:Hrs; [|discriminate].
    simpl. intros [= <-]. case_bool_decide as Hname.
    + intros [= <-]. exists r. split; [exact Hr|]. subst name.
      destruct r as [kv|]; simpl.
      * apply renderOutput_key in Hr. unfold renderedValue. simpl.
        by rewrite bool_decide_eq_true_2.
      * by eapply renderOutputs_absent.
    + intros Hfind. destruct (IH rs Hnodup eq_refl Hfind) as (r' & Hr' & Hval).
      exists r'. split; [exact Hr'|]. rewrite <- Hval.
      destruct r as [kv|]; [|reflexivity].
      apply renderOutput_key in Hr. unfold renderedValue. simpl.
      rewrite bool_decide_eq_false_2 by congruence. reflexivity.
Qed.

Lemma renderOutputs_total params conditions os :
  Forall (fun o => is_Some (renderOutput params conditions o)) os ->
  is_Some (renderOutputs params conditions os).
Proof.
  induction 1 as [|o os [r Hr] _ [rs Hrs]]; simpl.
  - by eexists.
  - rewrite Hr, Hrs. simpl. by eexists.
Qed.

Lemma deploy_unfold st supplied h :
  imageHandlerOf st = Some h ->
  deploy st supplied =
  (params ← resolveParameters supplied (parametersOf st);
   renderOutputs params (node_children h) (outputsOf st)).
Proof. unfold deploy. intros ->. reflexivity. Qed.

(** An output guarded by a condition. *)
Lemma renderOutput_guarded params conditions o c e holds :
  output_condition (output_props o) = Some c ->
  conditions !! c = Some e ->
  evalCondition params e = Some holds ->
  renderOutput params conditions o =
  if holds then
    v ← evalValue params conditions (output_value (output_props o));
    Some (Some (output_logicalId o, v))
  else Some None.
Proof.
  intros Hc He Hholds. unfold renderOutput. rewrite Hc, He. simpl.
  rewrite Hholds. reflexivity.
Qed.

Lemma renderOutput_unguarded params conditions o :
  output_condition (output_props o) = None ->
  renderOutput params conditions o =
  (v ← evalValue params conditions (output_value (output_props o));
   Some (Some (output_logicalId o, v))).
Proof. intros Hc. unfold renderOutput. rewrite Hc. reflexivity. Qed.

(** The conditions of the image handler of the spec. *)
Lemma specImageHandler_conditions props :
  let conditions := node_children (specImageHandler props) in
  conditions !! "DeployDemoUICondition" =
    Some (ConditionEquals (valueAsString (deployDemoUiParameter props))
            (Literal "Yes")) /\
  conditions !! "EnableCorsCondition" =
    Some (ConditionEquals (valueAsString (corsEnabledParameter props))
            (Literal "Yes")) /\
  conditions !! "ApiCertificateCondition" =
    (fun p => ConditionNot (ConditionEquals (valueAsString p) (Literal "")))
      <$> apiCertificateIamId props /\
  conditions !! "DemoUICertificateCondition" =
    (fun p => ConditionNot (ConditionEquals (valueAsString p) (Literal "")))
      <$> demoUICertificateIamId props.
Proof.
  unfold specImageHandler.
  destruct (apiCertificateIamId props), (demoUICertificateIamId props).
  all: repeat split; vm_compute; reflexivity.
Qed.

Lemma specImageHandler_pass env :
  exists st, ConstructsStack env specImageHandler = Ok st.
Proof.
  apply ConstructsStack_succeeds. intros props.
  destruct (specImageHandler_conditions props) as (Hdemo & Hcors & _).
  unfold tryFindChild.
  cbv zeta in Hdemo, Hcors. rewrite Hdemo, Hcors. split; by eexists.
Qed.

Lemma guarded_output_rendered st h supplied outs name o c pname :
  imageHandlerOf st = Some h ->
  NoDup (map output_logicalId (outputsOf st)) ->
  deploy st supplied = Some outs ->
  findOutput name st = Some o ->
  output_condition (output_props o) = Some c ->
  node_children h !! c = Some (ConditionEquals (FnRef pname) (Literal "Yes")) ->
  exists params,
    resolveParameters supplied (parametersOf st) = Some params /\
    (forall v,
       valueInEffect st supplied pname = Some v -> v ≠ "Yes" ->
       renderedValue name outs = None) /\
    (valueInEffect st supplied pname = Some "Yes" ->
       is_Some (renderedValue name outs) /\
       renderedValue name outs =
       evalValue params (node_children h) (output_value (output_props o))).
Proof.
  intros Hh Hnodup Hdeploy Hfind Hc He.
  rewrite (deploy_unfold _ _ _ Hh) in Hdeploy.
  destruct (resolveParameters supplied (parametersOf st)) as [params|] eqn:Hres;
    [|discriminate].
  simpl in Hdeploy. exists params. split; [reflexivity|].
  destruct (renderOutputs_find _ _ _ _ _ _ Hnodup Hdeploy Hfind)
    as (r & Hr & Hval).
  assert (Hp : params !! pname = valueInEffect st supplied pname)
    by exact (resolveParameters_lookup _ _ _ pname Hres).
  split.
  - intros v Hv Hne.
    rewrite (renderOutput_guarded _ _ _ _ _ false Hc He) in Hr.
    + injection Hr as <-. exact Hval.
    + simpl. rewrite Hp, Hv. simpl. by rewrite bool_decide_eq_false_2.
  - intros Hv.
    rewrite (renderOutput_guarded _ _ _ _ _ true Hc He) in Hr.
    + destruct (evalValue _ _ _) as [x|]; [|discriminate].
      injection Hr as <-. rewrite Hval. split; [by eexists | reflexivity].
    + simpl. rewrite Hp, Hv. reflexivity.
Qed.

Lemma nodup_ids (ids : list string) : bool_decide (NoDup ids) = true -> NoDup ids.
Proof. apply bool_decide_eq_true_1. Qed.

Lemma parameter_defined st supplied params name p :
  resolveParameters supplied (parametersOf st) = Some params ->
  findParameter name st = Some p ->
  is_Some (params !! name).
Proof.
  intros Hres Hfind. unfold findParameter in Hfind.
  apply find_some in Hfind as [Hin Hname].
  apply bool_decide_eq_true_1 in Hname. subst name.
  eapply resolveParameters_defined; [exact Hres|].
  by apply list_elem_of_In.
Qed.

Ltac render_step :=
  cbn [evalValue evalCondition evalOperand mbind option_bind fmap option_fmap
       option_map output_condition output_props output_value output_logicalId
       negb];
  repeat match goal with
    | E : ?m !! ?k = Some _ |- context [?m !! ?k] => rewrite E
    end;
  cbn [evalValue evalCondition evalOperand mbind option_bind fmap option_fmap
       option_map output_condition output_props output_value output_logicalId
       negb].

Ltac spec_conditions :=
  match goal with
  | Hchild : ?child = specImageHandler ?P |- _ =>
      let Hc := fresh "Hconds" in
      pose proof (specImageHandler_conditions P) as Hc;
      rewrite <- Hchild in Hc;
      cbv zeta in Hc;
      cbn [fmap option_fmap option_map apiCertificateIamId
           demoUICertificateIamId deployDemoUiParameter corsEnabledParameter
           valueAsString logicalId] in Hc;
      destruct Hc as (Hdemo & Hcors & Hapi & Hui)
  end.

Ltac absurd_children :=
  repeat match goal with
    | E : tryFindChild _ _ = Some _ |- _ =>
        apply tryFindChild_Some in E as [-> [? E]]
    | E : tryFindChild _ _ = None |- _ =>
        apply tryFindChild_None in E
    end;
  try congruence.

(** C4.  For the stack of a pass with the image handler of the spec:
    a deployment that gives every declared parameter a value renders its
    outputs; in the rendered outputs [DemoUrl] is absent when the value of
    [DeployDemoUI] is [No] and present when it is [Yes]; [CorsOrigin] is
    absent when the value of [CorsEnabled] is [No], and when it is [Yes]
    it is present with the value of the [CorsOrigin] parameter, which is
    the value supplied for it when one is. *)
Theorem conditional_outputs_rendered env supplied st :
  ConstructsStack env specImageHandler = Ok st ->
  (is_Some (resolveParameters supplied (parametersOf st)) ->
   is_Some (deploy st supplied)) /\
  (forall outs,
     deploy st supplied = Some outs ->
     (valueInEffect st supplied "DeployDemoUI" = Some "No" ->
      renderedValue "DemoUrl" outs = None) /\
     (valueInEffect st supplied "DeployDemoUI" = Some "Yes" ->
      is_Some (renderedValue "DemoUrl" outs)) /\
     (valueInEffect st supplied "CorsEnabled" = Some "No" ->
      renderedValue "CorsOrigin" outs = None) /\
     (valueInEffect st supplied "CorsEnabled" = Some "Yes" ->
      is_Some (renderedValue "CorsOrigin" outs) /\
      renderedValue "CorsOrigin" outs = valueInEffect st supplied "CorsOrigin" /\
      forall v,
        supplied !! "CorsOrigin" = Some v ->
        renderedValue "CorsOrigin" outs = Some v)).
Proof.
  intros H. remember specImageHandler as mk eqn:Hmk.
  by_region env H.
  all: subst mk; spec_conditions; absurd_children.
  all: unfold valueAsString in *; cbn [logicalId] in *.
  all: match goal with |- context [parametersOf ?s] => set (st := s) end.
  all: assert (Hh : imageHandlerOf st = Some child) by reflexivity.
  all: assert (Hnodup : NoDup (map output_logicalId (outputsOf st)))
         by (apply nodup_ids; vm_compute; reflexivity).
  all: split.
  all: try (intros [params Hres]; rewrite (deploy_unfold _ _ _ Hh), Hres;
    cbn [mbind option_bind]; apply renderOutputs_total;
    destruct (parameter_defined st supplied params "DeployDemoUI" _ Hres eq_refl);
    destruct (parameter_defined st supplied params "CorsEnabled" _ Hres eq_refl);
    destruct (parameter_defined st supplied params "CorsOrigin" _ Hres eq_refl);
    destruct (parameter_defined st supplied params "SourceBuckets" _ Hres eq_refl);
    destruct (parameter_defined st supplied params "LogRetentionPeriod" _ Hres eq_refl);
    try (destruct (parameter_defined st supplied params "ApiCertificateIamId" _ Hres eq_refl);
     destruct (parameter_defined st supplied params "DemoUICertificateIamId" _ Hres eq_refl));
    unfold outputsOf, st; cbn [children omap list_omap snd asOutput];
    repeat match goal with |- Forall _ _ => constructor end;
    unfold renderOutput; repeat render_step;
    repeat match goal with
      | |- context [bool_decide ?P] => destruct (bool_decide P); render_step
      end; by eexists).

  all: intros outs Hout.
  all: destruct (guarded_output_rendered st child supplied outs "DemoUrl" _
         "DeployDemoUICondition" "DeployDemoUI" Hh Hnodup Hout eq_refl eq_refl
         Hdemo) as (params & Hres & HdemoNo & HdemoYes).
  all: destruct (guarded_output_rendered st child supplied outs "CorsOrigin" _
         "EnableCorsCondition" "CorsEnabled" Hh Hnodup Hout eq_refl eq_refl
         Hcors) as (params' & Hres' & HcorsNo & HcorsYes).
  all: rewrite Hres in Hres'; injection Hres' as <-.
  all: assert (Horigin : renderedValue "CorsOrigin" outs =
                         valueInEffect st supplied "CorsOrigin" ->
                         forall v, supplied !! "CorsOrigin" = Some v ->
                         renderedValue "CorsOrigin" outs = Some v)
         by (intros -> v Hv; erewrite valueInEffect_found by reflexivity;
             unfold parameterValue; cbn [logicalId]; by rewrite Hv).
  all: split; [intros Hv; by apply (HdemoNo "No")|].
  all: split; [intros Hv; by apply HdemoYes|].
  all: split; [intros Hv; by apply (HcorsNo "No")|].
  all: intros Hv; destruct (HcorsYes Hv) as [Hsome Hval].
  all: cbn [evalValue output_value output_props] in Hval.
  all: rewrite (resolveParameters_lookup _ _ _ "CorsOrigin" Hres) in Hval.
  all: split; [exact Hsome|]; split; [exact Hval | exact (Horigin Hval)].
Qed.

Lemma conditional_outputs_rendered_witness :
  renderedValue "DemoUrl" optOutOutputs = None /\
  renderedValue "CorsOrigin" optOutOutputs = Some "https://example.com".
Proof.
  destruct (conditional_outputs_rendered ∅ optOut plainStack)
    as [_ Hrendered]; [vm_compute; reflexivity|].
  destruct (Hrendered optOutOutputs) as (Hno & _ & _ & Hyes);
    [vm_compute; reflexivity|].
  split.
  - apply Hno. vm_compute. reflexivity.
  - destruct Hyes as (_ & _ & Hsupplied); [vm_compute; reflexivity|].
    apply Hsupplied. vm_compute. reflexivity.
Defined.

(** ** C5: parameter groups *)

(** C5.  For every label and every list of handles, present or absent,
    [paramGroup] returns the group with that label whose members are the
    logical ids of the present handles in their order, which is the empty
    list when every handle is absent; [paramGroupIf] returns that group
    when its flag is true and nothing when it is false, whatever the
    handles.  Handles are those the constructor can hold: their logical
    id is not empty ([newCfnParameter_handle]). *)
Theorem paramGroup_members label params :
  Forall (fun p => logicalId p ≠ "") (omap id params) ->
  paramGroup label params = mkGroup label (map logicalId (omap id params)) /\
  (Forall (fun p => p = None) params ->
   paramGroup label params = mkGroup label []) /\
  (forall flag,
     paramGroupIf flag label params =
     if flag then Some (mkGroup label (map logicalId (omap id params)))
     else None).
Proof.
  intros Hids.
  assert (Hgroup :
    paramGroup label params = mkGroup label (map logicalId (omap id params))).
  { unfold paramGroup. f_equal.
    induction params as [|[p|] params IH]; simpl in *.
    - reflexivity.
    - apply Forall_cons in Hids as [Hp Hids].
      rewrite filter_cons_True by exact Hp. f_equal. exact (IH Hids).
    - rewrite filter_cons_False by (intros Hne; by apply Hne). exact (IH Hids). }
  split; [exact Hgroup|]. split.
  - intros Habsent. rewrite Hgroup. f_equal.
    clear Hids Hgroup. induction params as [|p params IH]; [reflexivity|].
    apply Forall_cons in Habsent as [-> Habsent]. simpl. exact (IH Habsent).
  - intros [|]; unfold paramGroupIf; [by rewrite Hgroup | reflexivity].
Qed.

Lemma paramGroup_members_witness :
  paramGroup "Demo UI" sampleHandles =
    mkGroup "Demo UI" ["DeployDemoUI"; "DemoUICertificateIamId"] /\
  paramGroupIf false "Demo UI" sampleHandles = None.
Proof.
  assert (Hids : Forall (fun p => logicalId p ≠ "") (omap id sampleHandles))
    by (repeat constructor; discriminate).
  split.
  - exact (proj1 (paramGroup_members "Demo UI" sampleHandles Hids)).
  - exact (proj2 (proj2 (paramGroup_members "Demo UI" sampleHandles Hids)) false).
Defined.

Ltac declared := eexists; repeat split; reflexivity.



(** ** C6: the declaration of [SourceBuckets] *)

(** The pass outside region mode declares [SourceBuckets] with a default,
    so it is not declared as a string with pattern [.+] and no default. *)
Lemma sourceBuckets_default_counterexample :
  ~ (forall st,
       ConstructsStack ∅ specImageHandler = Ok st ->
       declaredAs st "SourceBuckets" "String" None None (Some ".+")).
Proof.
  intros Hdeclared.
  destruct (Hdeclared plainStack) as (p & Hfind & _ & Hdefault & _).
  - vm_compute. reflexivity.
  - vm_compute in Hfind. injection Hfind as <-. discriminate Hdefault.
Qed.

(** C6, amended.  [SourceBuckets] is declared as a string with the
    validation pattern [.+], no allowed-value set and the default
    [defaultBucket, bucketNo2, bucketNo3, ...]; a deployment that supplies
    no value for it uses that default. *)
Theorem sourceBuckets_declaration env mk st :
  ConstructsStack env mk = Ok st ->
  declaredAs st "SourceBuckets" "String"
    (Some "defaultBucket, bucketNo2, bucketNo3, ...") None (Some ".+") /\
  (forall supplied,
     supplied !! "SourceBuckets" = None ->
     valueInEffect st supplied "SourceBuckets" =
     Some "defaultBucket, bucketNo2, bucketNo3, ...").
Proof.
  intros H. by_region env H.
  all: split; [declared|].
  all: intros supplied Hnone.
  all: erewrite valueInEffect_found by reflexivity.
  all: unfold parameterValue; cbn [logicalId].
  all: rewrite Hnone; reflexivity.
Qed.


Lemma sourceBuckets_declaration_witness :
  declaredAs plainStack "SourceBuckets" "String"
    (Some "defaultBucket, bucketNo2, bucketNo3, ...") None (Some ".+") /\
  valueInEffect plainStack optOut "SourceBuckets" =
    Some "defaultBucket, bucketNo2, bucketNo3, ...".
Proof.
  destruct (sourceBuckets_declaration ∅ specImageHandler plainStack)
    as [Hdecl Hvalue].
  - vm_compute. reflexivity.
  - split; [exact Hdecl|]. apply Hvalue. vm_compute. reflexivity.
Defined.

(** ** C7: the unconditional parameters *)

(** On the pass outside region mode not every row of the spec's table
    holds: the row of [SourceBuckets] has no default, the declaration has
    one. *)
Lemma unconditional_table_counterexample :
  ConstructsStack ∅ specImageHandler = Ok plainStack /\
  ~ Forall (rowHolds plainStack) specParameterTable.
Proof.
  split; [vm_compute; reflexivity|].
  intros Hrows.
  assert (Hrow : rowHolds plainStack
                   ("SourceBuckets", "String", None, None, Some ".+")).
  { eapply Forall_forall; [exact Hrows|].
    apply list_elem_of_In. simpl. auto 6. }
  destruct Hrow as (p & Hfind & _ & Hdefault & _).
  vm_compute in Hfind. injection Hfind as <-. discriminate Hdefault.
Qed.

(** C7, amended.  Every parameter declared in both modes other than
    [SourceBuckets] carries the type, default and constraint of its row:
    [DeployDemoUI] is a string over [Yes], [No] with default [Yes];
    [CorsEnabled], [AutoWebP], [EnableSignature] and
    [EnableDefaultFallbackImage] are strings over [Yes], [No] with default
    [No]; [CorsOrigin] is a string with default [*]; [LogRetentionPeriod]
    is a Number with default [1] over the seventeen listed values; the
    four free-text parameters are strings with the empty default; none
    has a pattern.  These eleven, [SourceBuckets] and the four region-only
    parameters are all the parameters a pass registers. *)
Theorem unconditional_parameter_table env mk st :
  ConstructsStack env mk = Ok st ->
  (declaredAs st "DeployDemoUI" "String" (Some "Yes") (Some ["Yes"; "No"]) None /\
   declaredAs st "CorsEnabled" "String" (Some "No") (Some ["Yes"; "No"]) None /\
   declaredAs st "AutoWebP" "String" (Some "No") (Some ["Yes"; "No"]) None /\
   declaredAs st "EnableSignature" "String" (Some "No") (Some ["Yes"; "No"]) None /\
   declaredAs st "EnableDefaultFallbackImage" "String" (Some "No")
     (Some ["Yes"; "No"]) None /\
   declaredAs st "CorsOrigin" "String" (Some "*") None None /\
   declaredAs st "LogRetentionPeriod" "Number" (Some "1")
     (Some ["1"; "3"; "5"; "7"; "14"; "30"; "60"; "90"; "120"; "150"; "180";
            "365"; "400"; "545"; "731"; "1827"; "3653"]) None /\
   declaredAs st "SecretsManagerSecret" "String" (Some "") None None /\
   declaredAs st "SecretsManagerKey" "String" (Some "") None None /\
   declaredAs st "FallbackImageS3Bucket" "String" (Some "") None None /\
   declaredAs st "FallbackImageS3Key" "String" (Some "") None None) /\
  Forall (rowHolds st)
    (filter (fun row => fst (fst (fst (fst row))) ≠ "SourceBuckets")
            specParameterTable) /\
  Forall (fun p =>
            logicalId p ∈ ["ApiDomain"; "ApiCertificateIamId"; "DemoUIDomain";
                           "DemoUICertificateIamId"] \/
            logicalId p = "SourceBuckets" \/
            logicalId p ∈ ["DeployDemoUI"; "CorsEnabled"; "AutoWebP";
                           "EnableSignature"; "EnableDefaultFallbackImage";
                           "CorsOrigin"; "LogRetentionPeriod";
                           "SecretsManagerSecret"; "SecretsManagerKey";
                           "FallbackImageS3Bucket"; "FallbackImageS3Key"])
         (parametersOf st).
Proof.
  intros H. by_region env H.
  all: split; [repeat split_and; declared|].
  all: split.
  all: match goal with
       | |- Forall (rowHolds _) ?rows =>
           let rows' := eval vm_compute in rows in change rows with rows'
       | |- _ => unfold parametersOf; cbn [children omap list_omap snd asParameter]
       end.
  all: repeat match goal with |- Forall _ _ => constructor end.
  all: try (unfold rowHolds; declared).
  all: cbn [logicalId].
  all: first [ left; apply list_elem_of_In; simpl; tauto
             | right; left; reflexivity
             | right; right; apply list_elem_of_In; simpl; tauto ].
Qed.

Lemma unconditional_parameter_table_witness :
  declaredAs regionStack "DeployDemoUI" "String" (Some "Yes")
    (Some ["Yes"; "No"]) None.
Proof.
  apply (unconditional_parameter_table regionEnv specImageHandler regionStack).
  vm_compute. reflexivity.
Defined.

(** ** C8: determinism of the assembly *)

Lemma deploy_children st1 st2 supplied :
  children st1 = children st2 -> deploy st1 supplied = deploy st2 supplied.
Proof.
  intros Heq. unfold deploy, imageHandlerOf, parametersOf, outputsOf.
  rewrite Heq. reflexivity.
Qed.

(** C8.  Two passes whose environments give the same region flag, run with
    the same image handler, either both fail or yield the same elements in
    the same order (parameters, outputs with their identifiers, values and
    conditions) and the same parameter groups; deployed with the same
    parameter values they render the same outputs.  Two runs on one
    environment are the special case. *)
Theorem assembly_deterministic env1 env2 mk :
  IS_CHINA_REGION env1 = IS_CHINA_REGION env2 ->
  mapResult assembly (ConstructsStack env1 mk) =
  mapResult assembly (ConstructsStack env2 mk) /\
  (forall supplied,
     mapResult (fun st => deploy st supplied) (ConstructsStack env1 mk) =
     mapResult (fun st => deploy st supplied) (ConstructsStack env2 mk)).
Proof.
  intros Hflag.
  assert (Hsame :
    mapResult assembly (ConstructsStack env1 mk) =
    mapResult assembly (ConstructsStack env2 mk)).
  { unfold ConstructsStack, constructor. rewrite Hflag.
    generalize (templateDescription env1) (templateDescription env2).
    intros d1 d2.
    destruct (IS_CHINA_REGION env2).
    all: stack_cbv.
    all: repeat match goal with
           | |- context [match tryFindChild ?h ?n with _ => _ end] =>
               destruct (tryFindChild h n)
           end.
    all: reflexivity. }
  split; [exact Hsame|]. intros supplied.
  destruct (ConstructsStack env1 mk) as [st1|e1],
           (ConstructsStack env2 mk) as [st2|e2];
    unfold mapResult, assembly in *.
  - f_equal. apply deploy_children. congruence.
  - discriminate Hsame.
  - discriminate Hsame.
  - congruence.
Qed.

Lemma assembly_deterministic_witness :
  mapResult assembly (ConstructsStack regionEnv specImageHandler) =
  mapResult assembly (ConstructsStack versionedRegionEnv specImageHandler).
Proof.
  apply (assembly_deterministic regionEnv versionedRegionEnv specImageHandler).
  vm_compute. reflexivity.
Defined.

(** ** C9: what the conditional declarations return *)

Lemma plainId_nonempty id : plainId id = true -> id ≠ "".
Proof.
  unfold plainId. intros H ->. discriminate H.
Qed.

(** C9.  [cfnOutputIf] returns no handle in every case: whenever it
    returns, it returns nothing; with a false flag it returns at once and
    leaves the stack as it was; with a true flag and an id not yet in use
    it does return, nothing again, although the output has been created
    and registered under the id.  [cfnParamIf] with a true flag, on such an
    id, returns the handle of the parameter it has registered, and never
    returns without a handle. *)
Theorem cfnOutputIf_returns_no_handle :
  (forall expression id props st r st',
     cfnOutputIf expression id props st = Ok (r, st') -> r = None) /\
  (forall id props st, cfnOutputIf false id props st = Ok (None, st)) /\
  (forall id props st,
     plainId id = true -> findElement id (children st) = None ->
     exists st',
       cfnOutputIf true id props st = Ok (None, st') /\
       findElement id (children st') = Some (ElOutput (mkOutput id props)) /\
       outputsOf st' = (outputsOf st ++ [mkOutput id props])%list) /\
  (forall id props st,
     plainId id = true -> findElement id (children st) = None ->
     exists st',
       cfnParamIf true id props st = Ok (Some (mkParameter id props), st') /\
       findElement id (children st') =
         Some (ElParameter (mkParameter id props)) /\
       parametersOf st' = (parametersOf st ++ [mkParameter id props])%list) /\
  (forall id props st r st',
     cfnParamIf true id props st = Ok (r, st') -> is_Some r).
Proof.
  split; [|split; [|split; [|split]]].
  - intros [|] id props st r st'; unfold cfnOutputIf, newCfnOutput, bind, ret.
    + destruct (addChild id _ st) as [[u st1]|]; [|discriminate].
      by intros [= <- _].
    + by intros [= <- _].
  - reflexivity.
  - intros id props st Hplain Hfresh. apply plainId_nonempty in Hplain.
    unfold cfnOutputIf, newCfnOutput, bind, ret.
    rewrite (addChild_fresh _ _ _ Hplain Hfresh).
    eexists. split; [reflexivity|]. cbn [children]. split.
    + by apply findElement_added.
    + unfold outputsOf. cbn [children]. by rewrite omap_app.
  - intros id props st Hplain Hfresh. apply plainId_nonempty in Hplain.
    unfold cfnParamIf, newCfnParameter, bind, ret.
    rewrite (addChild_fresh _ _ _ Hplain Hfresh).
    eexists. split; [reflexivity|]. cbn [children]. split.
    + by apply findElement_added.
    + unfold parametersOf. cbn [children]. by rewrite omap_app.
  - intros id props st r st'. unfold cfnParamIf, newCfnParameter, bind, ret.
    destruct (addChild id _ st) as [[u st1]|]; [|discriminate].
    intros [= <- _]. by eexists.
Qed.

Lemma cfnOutputIf_returns_no_handle_witness :
  (exists st',
     cfnOutputIf true "ApiEndpointCNAME"
       (mkOutputProps (Some apiEndpointCNAMEDescription)
          (FnSub "${ImageHandlerDistribution.DomainName}") None) emptyStack =
       Ok (None, st') /\
     findElement "ApiEndpointCNAME" (children st') =
       Some (ElOutput (mkOutput "ApiEndpointCNAME"
               (mkOutputProps (Some apiEndpointCNAMEDescription)
                  (FnSub "${ImageHandlerDistribution.DomainName}") None))) /\
     outputsOf st' =
       (outputsOf emptyStack ++
        [mkOutput "ApiEndpointCNAME"
           (mkOutputProps (Some apiEndpointCNAMEDescription)
              (FnSub "${ImageHandlerDistribution.DomainName}") None)])%list) /\
  (exists st',
     cfnParamIf true "ApiDomain" apiDomainProps emptyStack =
       Ok (Some (mkParameter "ApiDomain" apiDomainProps), st') /\
     findElement "ApiDomain" (children st') =
       Some (ElParameter (mkParameter "ApiDomain" apiDomainProps)) /\
     parametersOf st' =
       (parametersOf emptyStack ++ [mkParameter "ApiDomain" apiDomainProps])%list).
Proof.
  split.
  - apply (proj1 (proj2 (proj2 cfnOutputIf_returns_no_handle))).
    + vm_compute. reflexivity.
    + reflexivity.
  - apply (proj1 (proj2 (proj2 (proj2 cfnOutputIf_returns_no_handle)))).
    + vm_compute. reflexivity.
    + reflexivity.
Defined.

(** ** C10: the [ParameterGroups] list *)

(** C10.  After its final filter the [ParameterGroups] list holds no
    absent entry.  In region mode it has eight groups, [API Configuration]
    first; outside it has seven, [CORS Options] first, and its [Demo UI]
    group has [DeployDemoUI] as only member.  Labels and order are fixed by
    the region flag alone. *)
Theorem parameter_groups_shape env mk st :
  ConstructsStack env mk = Ok st ->
  exists groups,
    metadata (templateOptions st) = Some groups /\
    Forall is_Some groups /\
    (IS_CHINA_REGION env = true ->
       length groups = 8 /\
       map (option_map Label) groups =
         [Some "API Configuration"; Some "CORS Options"; Some "Image Sources";
          Some "Demo UI"; Some "Event Logging"; Some signatureLabel;
          Some fallbackLabel; Some "Auto WebP"]) /\
    (IS_CHINA_REGION env = false ->
       length groups = 7 /\
       map (option_map Label) groups =
         [Some "CORS Options"; Some "Image Sources"; Some "Demo UI";
          Some "Event Logging"; Some signatureLabel; Some fallbackLabel;
          Some "Auto WebP"] /\
       groups !! 2%nat = Some (Some (mkGroup "Demo UI" ["DeployDemoUI"]))).
Proof.
  intros H. by_region env H.
  all: eexists; split; [reflexivity|].
  all: split; [repeat constructor; eexists; reflexivity|].
  all: split; intros Hflag; try discriminate Hflag.
  all: repeat split; reflexivity.
Qed.

Lemma parameter_groups_shape_witness :
  exists groups,
    metadata (templateOptions plainStack) = Some groups /\
    Forall is_Some groups /\
    (IS_CHINA_REGION ∅ = true ->
       length groups = 8 /\
       map (option_map Label) groups =
         [Some "API Configuration"; Some "CORS Options"; Some "Image Sources";
          Some "Demo UI"; Some "Event Logging"; Some signatureLabel;
          Some fallbackLabel; Some "Auto WebP"]) /\
    (IS_CHINA_REGION ∅ = false ->
       length groups = 7 /\
       map (option_map Label) groups =
         [Some "CORS Options"; Some "Image Sources"; Some "Demo UI";
          Some "Event Logging"; Some signatureLabel; Some fallbackLabel;
          Some "Auto WebP"] /\
       groups !! 2%nat = Some (Some (mkGroup "Demo UI" ["DeployDemoUI"]))).
Proof.
  apply (parameter_groups_shape ∅ specImageHandler plainStack).
  vm_compute. reflexivity.
Defined.

(** * Further properties of the code *)

(** ** [paramGroup] on arbitrary handles *)

Lemma paramGroup_Parameters label params :
  Parameters (paramGroup label params) =
  filter (fun id => id ≠ "") (logicalId <$> omap id params).
Proof.
  unfold paramGroup. cbn [Parameters].
  induction params as [|[p|] params IH]; simpl.
  - reflexivity.
  - rewrite !filter_cons. destruct (decide (logicalId p ≠ "")); by rewrite IH.
  - rewrite filter_cons_False by (intros Hne; by apply Hne). exact IH.
Qed.

(** X2.  For any handles, [paramGroup] lists the non-empty logical ids of
    the present handles, in order: a present handle whose id is empty is
    dropped like an absent one, so the empty string is never a member, a
    name is a member exactly when it is the non-empty id of a present
    handle, and there are at most as many members as handles. *)
Theorem paramGroup_drops_empty_ids label params :
  Parameters (paramGroup label params) =
    filter (fun id => id ≠ "") (logicalId <$> omap id params) /\
  ("" ∉ Parameters (paramGroup label params)) /\
  (forall name,
     name ∈ Parameters (paramGroup label params) <->
     (name ≠ "" /\ exists p, Some p ∈ params /\ logicalId p = name)) /\
  length (Parameters (paramGroup label params)) <= length params.
Proof.
  rewrite paramGroup_Parameters. split; [reflexivity|]. split; [|split].
  - intros Hin. apply list_elem_of_filter in Hin as [Hne _]. by apply Hne.
  - intros name. rewrite list_elem_of_filter, list_elem_of_fmap. split.
    + intros [Hne (p & -> & Hin)]. split; [exact Hne|]. exists p.
      split; [|reflexivity]. apply list_elem_of_omap in Hin as (x & Hx & Hid).
      simpl in Hid. by subst x.
    + intros [Hne (p & Hin & <-)]. split; [exact Hne|]. exists p.
      split; [reflexivity|]. apply list_elem_of_omap. by exists (Some p).
  - etransitivity; [apply length_filter|]. rewrite length_fmap.
    induction params as [|[p|] params IH]; [done| |];
      change (omap id (?x :: params)) with
        (match x with Some y => y :: omap id params | None => omap id params end);
      simpl; lia.
Qed.

Lemma paramGroup_drops_empty_ids_witness :
  Parameters (paramGroup "Demo UI"
    [Some (mkParameter "" deployDemoUiProps); None;
     Some (mkParameter "DemoUIDomain" demoUIDomainProps)]) = ["DemoUIDomain"].
Proof.
  rewrite (proj1 (paramGroup_drops_empty_ids "Demo UI" _)).
  vm_compute. reflexivity.
Defined.

(** X3.  The members of the group of two lists of handles put together
    are the members for the first followed by those for the second, and
    removing the absent handles from a list beforehand does not change its
    group. *)
Theorem paramGroup_app label ps qs :
  Parameters (paramGroup label (ps ++ qs)) =
    (Parameters (paramGroup label ps) ++ Parameters (paramGroup label qs))%list /\
  paramGroup label (filter is_Some ps) = paramGroup label ps.
Proof.
  split.
  - rewrite !paramGroup_Parameters, omap_app, fmap_app. apply filter_app.
  - unfold paramGroup. f_equal.
    induction ps as [|[p|] ps IH].
    + reflexivity.
    + rewrite (filter_cons_True is_Some) by (by eapply mk_is_Some).
      cbn [map]. rewrite !(filter_cons (fun id => id ≠ "")).
      destruct (decide (logicalId p ≠ "")); by rewrite IH.
    + rewrite (filter_cons_False is_Some) by apply is_Some_None.
      cbn [map].
      rewrite (filter_cons_False (fun id => id ≠ ""))
        by (intros Hne; by apply Hne).
      exact IH.
Qed.

(** ** Declarations on an arbitrary stack *)

Lemma findElement_None id cs :
  findElement id cs = None <-> id ∉ map fst cs.
Proof.
  induction cs as [|[id' e] cs IH]; simpl.
  - split; [intros _; apply not_elem_of_nil | reflexivity].
  - rewrite not_elem_of_cons. destruct (decide (id' = id)) as [->|Hne].
    + split; [discriminate | intros [Hne _]; done].
    + rewrite IH. split; [intros H; split; [congruence | exact H] | intros [_ H]; exact H].
Qed.

Lemma addChild_distinctIds id e st u st' :
  distinctIds st -> addChild id e st = Ok (u, st') -> distinctIds st'.
Proof.
  intros [Hnodup Hnonempty] Hadd.
  apply addChild_Ok in Hadd as (Hne & Hfresh & ->).
  apply findElement_None in Hfresh.
  unfold distinctIds, constructIds in *. cbn [children].
  rewrite map_app. cbn [map fst]. split.
  - apply NoDup_app. split; [exact Hnodup|]. split.
    + intros x Hx Hin. apply list_elem_of_singleton in Hin. by subst x.
    + apply NoDup_singleton.
  - rewrite elem_of_app, list_elem_of_singleton. intros [Hin|Heq]; [done|].
    by apply Hne.
Qed.

Lemma renameOutput_ids id newLogicalId cs :
  map fst (renameOutput id newLogicalId cs) = map fst cs.
Proof.
  induction cs as [|[id' e] cs IH]; simpl; [reflexivity|].
  destruct (decide (id' = id)).
  - by destruct e.
  - simpl. by rewrite IH.
Qed.

(** X4.  On a stack whose construct ids are non-empty and pairwise
    distinct, each of [cfnParam], [cfnParamIf], [cfnOutput] and
    [cfnOutputIf] that returns leaves a stack with that property, and
    [overrideLogicalId] changes no construct id. *)
Theorem declarations_keep_ids_distinct st :
  distinctIds st ->
  (forall id props p st',
     cfnParam id props st = Ok (p, st') -> distinctIds st') /\
  (forall flag id props p st',
     cfnParamIf flag id props st = Ok (p, st') -> distinctIds st') /\
  (forall id props h st',
     cfnOutput id props st = Ok (h, st') -> distinctIds st') /\
  (forall flag id props h st',
     cfnOutputIf flag id props st = Ok (h, st') -> distinctIds st') /\
  (forall handle newLogicalId u st',
     overrideLogicalId handle newLogicalId st = Ok (u, st') ->
     constructIds st' = constructIds st /\ distinctIds st').
Proof.
  intros Hst.
  assert (Hparam : forall id props p st',
            newCfnParameter id props st = Ok (p, st') -> distinctIds st').
  { intros id props p st'. unfold newCfnParameter, bind, ret.
    destruct (addChild id _ st) as [[u st1]|] eqn:E; [|discriminate].
    intros [= _ <-]. by eapply addChild_distinctIds. }
  assert (Houtput : forall id props h st',
            newCfnOutput id props st = Ok (h, st') -> distinctIds st').
  { intros id props h st'. unfold newCfnOutput, bind, ret.
    destruct (addChild id _ st) as [[u st1]|] eqn:E; [|discriminate].
    intros [= _ <-]. by eapply addChild_distinctIds. }
  split; [|split; [|split; [|split]]].
  - exact Hparam.
  - intros [|] id props p st'; unfold cfnParamIf, bind, ret.
    + destruct (newCfnParameter id props st) as [[q st1]|] eqn:E; [|discriminate].
      intros [= _ <-]. by eapply Hparam.
    + by intros [= _ <-].
  - exact Houtput.
  - intros [|] id props h st'; unfold cfnOutputIf, bind, ret.
    + destruct (newCfnOutput id props st) as [[q st1]|] eqn:E; [|discriminate].
      intros [= _ <-]. by eapply Houtput.
    + by intros [= _ <-].
  - intros handle newLogicalId u st'. unfold overrideLogicalId.
    destruct (decide (newLogicalId = "")); intros [= _ <-]; [done|].
    unfold distinctIds, constructIds. cbn [children].
    rewrite renameOutput_ids. split; [reflexivity | exact Hst].
Qed.

Lemma distinctIds_empty : distinctIds emptyStack.
Proof. split; [apply NoDup_nil_2 | apply not_elem_of_nil]. Qed.

Lemma declarations_keep_ids_distinct_witness :
  distinctIds
    (mkStack [("DeployDemoUI",
               ElParameter (mkParameter "DeployDemoUI" deployDemoUiProps))]
             (mkTemplateOptions None None None)).
Proof.
  apply (proj1 (declarations_keep_ids_distinct emptyStack distinctIds_empty)
           "DeployDemoUI" deployDemoUiProps
           (mkParameter "DeployDemoUI" deployDemoUiProps)).
  vm_compute. reflexivity.
Defined.







(** ** The stack of a pass *)

(** X7.  A pass fails in two ways only: for want of
    [DeployDemoUICondition] in the image handler, or, that child being
    there, for want of [EnableCorsCondition].  No construct id of the
    constructor is empty or used twice. *)
Theorem pass_failures env mk e :
  ConstructsStack env mk = Failed e ->
  exists props,
    (e = NoChildWithId "DeployDemoUICondition" /\
     tryFindChild (mk props) "DeployDemoUICondition" = None) \/
    (e = NoChildWithId "EnableCorsCondition" /\
     is_Some (tryFindChild (mk props) "DeployDemoUICondition") /\
     tryFindChild (mk props) "EnableCorsCondition" = None).
Proof.
  intros H. unfold ConstructsStack, constructor in H.
  destruct (IS_CHINA_REGION env).
  all: pass_cbv H; name_handler H; split_children.
  all: first [discriminate H | injection H as <-].
  all: match goal with
       | Hchild : _ = ?f ?P |- _ => exists P; rewrite <- Hchild
       end.
  all: first [ left; split; [reflexivity | assumption]
             | right; split; [reflexivity|]; split; [by eexists | assumption] ].
Qed.

Lemma pass_failures_witness :
  exists props,
    (NoChildWithId "DeployDemoUICondition" = NoChildWithId "DeployDemoUICondition" /\
     tryFindChild (bareImageHandler props) "DeployDemoUICondition" = None) \/
    (NoChildWithId "DeployDemoUICondition" = NoChildWithId "EnableCorsCondition" /\
     is_Some (tryFindChild (bareImageHandler props) "DeployDemoUICondition") /\
     tryFindChild (bareImageHandler props) "EnableCorsCondition" = None).
Proof.
  apply (pass_failures ∅ bareImageHandler).
  vm_compute. reflexivity.
Defined.

(** X8.  In a pass the image handler is built from a property bag whose
    present handles are the parameter registry, in declaration order; the
    stack holds the parameters first, each under its logical id, then the
    [Send] mapping and the image handler, then outputs only; its
    construct ids are non-empty and pairwise distinct. *)
Theorem handler_receives_registry env mk st :
  ConstructsStack env mk = Ok st ->
  exists props outs,
    imageHandlerOf st = Some (mk props) /\
    omap id (handlesOf props) = parametersOf st /\
    children st =
      (map (fun p => (logicalId p, ElParameter p)) (parametersOf st) ++
       [("Send", ElMapping [("AnonymousUsage", [("Data", "Yes")])]);
        ("ServerlessImageHandler", ElImageHandler (mk props))] ++
       outs)%list /\
    Forall (fun c => is_Some (asOutput (snd c))) outs /\
    distinctIds st.
Proof.
  intros H. by_region env H.
  all: match goal with
       | Hchild : _ = ?f ?P |- _ => exists P; rewrite <- Hchild
       end.
  all: eexists.
  all: split; [reflexivity|]; split; [reflexivity|]; split; [reflexivity|].
  all: split; [repeat constructor; by eapply mk_is_Some|].
  all: split; [apply nodup_ids; vm_compute; reflexivity|].
  all: unfold constructIds; cbn [children map fst].
  all: rewrite !not_elem_of_cons; repeat split; try discriminate.
  all: apply not_elem_of_nil.
Qed.

Lemma handler_receives_registry_witness :
  exists props outs,
    imageHandlerOf plainStack = Some (specImageHandler props) /\
    omap id (handlesOf props) = parametersOf plainStack /\
    children plainStack =
      (map (fun p => (logicalId p, ElParameter p)) (parametersOf plainStack) ++
       [("Send", ElMapping [("AnonymousUsage", [("Data", "Yes")])]);
        ("ServerlessImageHandler", ElImageHandler (specImageHandler props))] ++
       outs)%list /\
    Forall (fun c => is_Some (asOutput (snd c))) outs /\
    distinctIds plainStack.
Proof.
  apply (handler_receives_registry ∅ specImageHandler plainStack).
  vm_compute. reflexivity.
Defined.

Lemma findParameter_is_Some name st :
  is_Some (findParameter name st) <-> name ∈ logicalId <$> parametersOf st.
Proof.
  unfold findParameter. rewrite list_elem_of_fmap. split.
  - intros [p Hfind]. apply find_some in Hfind as [Hin Hname].
    apply bool_decide_eq_true_1 in Hname. exists p.
    split; [done | by apply list_elem_of_In].
  - intros (p & -> & Hin).
    destruct (List.find _ _) as [q|] eqn:Hfind; [by eexists|].
    apply list_elem_of_In in Hin.
    eapply find_none in Hfind; [|exact Hin].
    by rewrite bool_decide_eq_true_2 in Hfind.
Qed.

Lemma permutation_ids (l k : list string) :
  bool_decide (l ≡ₚ k) = true -> l ≡ₚ k.
Proof. apply bool_decide_eq_true_1. Qed.

(** X9.  The members of the parameter groups are the declared parameters,
    each once: a name is in some group exactly when a parameter of that
    logical id is registered. *)
Theorem groups_cover_registry env mk st :
  ConstructsStack env mk = Ok st ->
  exists groups,
    metadata (templateOptions st) = Some groups /\
    groupMembers groups ≡ₚ logicalId <$> parametersOf st /\
    NoDup (groupMembers groups) /\
    (forall name,
       name ∈ groupMembers groups <-> is_Some (findParameter name st)).
Proof.
  intros H.
  assert (exists groups,
    metadata (templateOptions st) = Some groups /\
    groupMembers groups ≡ₚ logicalId <$> parametersOf st /\
    NoDup (groupMembers groups)) as (groups & Hmeta & Hperm & Hnodup).
  { by_region env H.
    all: eexists; split; [reflexivity|].
    all: split; [apply permutation_ids | apply nodup_ids].
    all: vm_compute; reflexivity. }
  exists groups. split; [exact Hmeta|]. split; [exact Hperm|].
  split; [exact Hnodup|].
  intros name. rewrite findParameter_is_Some. by rewrite Hperm.
Qed.

Lemma groups_cover_registry_witness :
  exists groups,
    metadata (templateOptions regionStack) = Some groups /\
    groupMembers groups ≡ₚ logicalId <$> parametersOf regionStack /\
    NoDup (groupMembers groups) /\
    (forall name,
       name ∈ groupMembers groups <->
       is_Some (findParameter name regionStack)).
Proof.
  apply (groups_cover_registry regionEnv specImageHandler regionStack).
  vm_compute. reflexivity.
Defined.

(** X10.  The outputs of a pass, by logical id and in order, with their
    conditions: only [DemoUrl] and [CorsOrigin] are conditional.  The four
    outputs constructed as [...Output] carry the overridden logical id
    and are no longer found under the construct id, which the stack still
    holds them by. *)
Theorem output_inventory env mk st :
  ConstructsStack env mk = Ok st ->
  map (fun o => (output_logicalId o, output_condition (output_props o)))
      (outputsOf st) =
    (if IS_CHINA_REGION env then
       [("ApiEndpoint", None); ("ApiEndpointCNAME", None);
        ("DemoUrl", Some "DeployDemoUICondition"); ("DemoUrlCNAME", None);
        ("SourceBuckets", None); ("CorsEnabled", None);
        ("CorsOrigin", Some "EnableCorsCondition");
        ("LogRetentionPeriod", None)]
     else
       [("ApiEndpoint", None);
        ("DemoUrl", Some "DeployDemoUICondition");
        ("SourceBuckets", None); ("CorsEnabled", None);
        ("CorsOrigin", Some "EnableCorsCondition");
        ("LogRetentionPeriod", None)]) /\
  Forall (fun id => findOutput id st = None)
    ["SourceBucketsOutput"; "CorsEnabledOutput"; "CorsOriginOutput";
     "LogRetentionPeriodOutput"] /\
  Forall (fun id => exists o, findElement id (children st) = Some (ElOutput o))
    ["SourceBucketsOutput"; "CorsEnabledOutput"; "CorsOriginOutput";
     "LogRetentionPeriodOutput"].
Proof.
  intros H. by_region env H.
  all: repeat match goal with
         | E : tryFindChild _ _ = Some _ |- _ =>
             apply tryFindChild_Some in E as [-> _]
         end.
  all: split; [reflexivity|]; split.
  all: repeat match goal with |- Forall _ _ => constructor end.
  all: first [reflexivity | eexists; reflexivity].
Qed.

Lemma output_inventory_witness :
  Forall (fun id => findOutput id plainStack = None)
    ["SourceBucketsOutput"; "CorsEnabledOutput"; "CorsOriginOutput";
     "LogRetentionPeriodOutput"].
Proof.
  apply (output_inventory ∅ specImageHandler plainStack).
  vm_compute. reflexivity.
Defined.

(** X11.  Every parameter an output's value refers to with [Ref] is
    declared in the pass, and each of the outputs [SourceBuckets],
    [CorsEnabled], [CorsOrigin] and [LogRetentionPeriod] has as value the
    reference to the declared parameter of its own logical id. *)
Theorem outputs_reference_declared_parameters env mk st :
  ConstructsStack env mk = Ok st ->
  Forall (fun o =>
            Forall (fun name => is_Some (findParameter name st))
                   (valueRefs (output_value (output_props o))))
         (outputsOf st) /\
  Forall (fun name =>
            exists o p,
              findOutput name st = Some o /\
              findParameter name st = Some p /\
              output_value (output_props o) = valueAsString p)
         ["SourceBuckets"; "CorsEnabled"; "CorsOrigin"; "LogRetentionPeriod"].
Proof.
  intros H. by_region env H.
  all: split.
  all: unfold outputsOf; cbn [children omap list_omap snd asOutput].
  all: repeat match goal with |- Forall _ _ => constructor end.
  all: first [by eapply mk_is_Some
             | eexists _, _; split; [reflexivity|]; split; reflexivity].
Qed.

Lemma outputs_reference_declared_parameters_witness :
  Forall (fun name =>
            exists o p,
              findOutput name regionStack = Some o /\
              findParameter name regionStack = Some p /\
              output_value (output_props o) = valueAsString p)
         ["SourceBuckets"; "CorsEnabled"; "CorsOrigin"; "LogRetentionPeriod"].
Proof.
  apply (outputs_reference_declared_parameters regionEnv specImageHandler
           regionStack).
  vm_compute. reflexivity.
Defined.

(** X12.  In region mode [ApiDomain] is a string with the domain pattern
    and no default, [DemoUIDomain] a string with that pattern and the
    empty default, and the two certificate ids strings with the empty
    default; the sixteen parameters are registered in the order of their
    declarations. *)
Theorem region_parameter_table env mk st :
  ConstructsStack env mk = Ok st ->
  IS_CHINA_REGION env = true ->
  declaredAs st "ApiDomain" "String" None None
    (Some "^$|(([a-zA-Z0-9]|[a-zA-Z0-9][a-zA-Z0-9\-]*[a-zA-Z0-9])\.)*([A-Za-z0-9]|[A-Za-z0-9][A-Za-z0-9\-]*[A-Za-z0-9])$") /\
  declaredAs st "ApiCertificateIamId" "String" (Some "") None None /\
  declaredAs st "DemoUIDomain" "String" (Some "") None
    (Some "^$|(([a-zA-Z0-9]|[a-zA-Z0-9][a-zA-Z0-9\-]*[a-zA-Z0-9])\.)*([A-Za-z0-9]|[A-Za-z0-9][A-Za-z0-9\-]*[A-Za-z0-9])$") /\
  declaredAs st "DemoUICertificateIamId" "String" (Some "") None None /\
  logicalId <$> parametersOf st =
    ["ApiDomain"; "ApiCertificateIamId"; "DeployDemoUI"; "DemoUIDomain";
     "DemoUICertificateIamId"; "CorsEnabled"; "CorsOrigin"; "SourceBuckets";
     "LogRetentionPeriod"; "AutoWebP"; "EnableSignature";
     "SecretsManagerSecret"; "SecretsManagerKey";
     "EnableDefaultFallbackImage"; "FallbackImageS3Bucket";
     "FallbackImageS3Key"].
Proof.
  intros H Hflag. unfold ConstructsStack, constructor in H. rewrite Hflag in H.
  pass_cases H.
  all: repeat split_and; first [declared | reflexivity].
Qed.

Lemma region_parameter_table_witness :
  declaredAs regionStack "ApiCertificateIamId" "String" (Some "") None None.
Proof.
  apply (region_parameter_table regionEnv specImageHandler regionStack).
  - vm_compute. reflexivity.
  - vm_compute. reflexivity.
Defined.

(** X13.  [ApiDomain] is the only parameter of a pass without a default,
    so outside region mode every parameter has one; a default always
    belongs to the allowed values when there are any; and
    [LogRetentionPeriod] is the only parameter of type Number. *)
Theorem parameter_defaults env mk st :
  ConstructsStack env mk = Ok st ->
  Forall (fun p =>
            (param_default (param_props p) = None <-> logicalId p = "ApiDomain") /\
            (forall d values,
               param_default (param_props p) = Some d ->
               param_allowedValues (param_props p) = Some values ->
               d ∈ values) /\
            (param_type (param_props p) = Some "Number" <->
             logicalId p = "LogRetentionPeriod"))
         (parametersOf st) /\
  (IS_CHINA_REGION env = false ->
   Forall (fun p => is_Some (param_default (param_props p))) (parametersOf st)).
Proof.
  intros H. by_region env H.
  all: split; [|intros Hflag; try discriminate Hflag].
  all: unfold parametersOf; cbn [children omap list_omap snd asParameter].
  all: repeat match goal with |- Forall _ _ => constructor end.
  all: try by eapply mk_is_Some.
  all: split; [split; intros; discriminate || reflexivity|].
  all: split; [|split; intros; discriminate || reflexivity].
  all: intros d values [= <-] Hvalues; try discriminate Hvalues.
  all: injection Hvalues as <-.
  all: apply list_elem_of_In; simpl; auto.
Qed.

Lemma parameter_defaults_witness :
  Forall (fun p => is_Some (param_default (param_props p)))
    (parametersOf plainStack).
Proof.
  apply (parameter_defaults ∅ specImageHandler plainStack).
  - vm_compute. reflexivity.
  - vm_compute. reflexivity.
Defined.

(** X14.  A pass sets the format version [2010-09-09] and a description
    that ends with the value of [VERSION], or with the word [undefined]
    when the variable is not set. *)
Theorem template_options env mk st :
  ConstructsStack env mk = Ok st ->
  templateFormatVersion (templateOptions st) = Some "2010-09-09" /\
  exists d,
    description (templateOptions st) = Some d /\
    (forall v, env !! "VERSION" = Some v ->
       d = "(SO0023) - Serverless Image Handler with aws-solutions-constructs: This template deploys and configures a serverless architecture that is optimized for dynamic image manipulation and delivery at low latency and cost. Leverages SharpJS for image processing. Template version " +:+ v) /\
    (env !! "VERSION" = None ->
       d = "(SO0023) - Serverless Image Handler with aws-solutions-constructs: This template deploys and configures a serverless architecture that is optimized for dynamic image manipulation and delivery at low latency and cost. Leverages SharpJS for image processing. Template version undefined").
Proof.
  intros H. by_region env H.
  all: split; [reflexivity|].
  all: eexists; split; [reflexivity|].
  all: unfold templateDescription, VERSION.
  all: split; [intros v -> | intros ->]; reflexivity.
Qed.

Lemma template_options_witness :
  templateFormatVersion (templateOptions plainStack) = Some "2010-09-09".
Proof.
  apply (template_options ∅ specImageHandler plainStack).
  vm_compute. reflexivity.
Defined.

(** X15.  The certificate guards look at the image handler, not at the
    region flag: outside region mode, when the handler has
    [ApiCertificateCondition] the value of [ApiEndpoint] is the branch
    over the URLs of [ApiDomain] although no parameter [ApiDomain] is
    declared, and likewise for [DemoUrl] and [DemoUIDomain]. *)
Theorem certificate_guard_ignores_region env mk st :
  ConstructsStack env mk = Ok st ->
  IS_CHINA_REGION env = false ->
  exists h,
    imageHandlerOf st = Some h /\
    (is_Some (tryFindChild h "ApiCertificateCondition") ->
     exists api,
       findOutput "ApiEndpoint" st = Some api /\
       output_value (output_props api) =
         FnConditionIf "ApiCertificateCondition"
           (FnSub "https://${ApiDomain}") (FnSub "http://${ApiDomain}") /\
       findParameter "ApiDomain" st = None) /\
    (is_Some (tryFindChild h "DemoUICertificateCondition") ->
     exists demo,
       findOutput "DemoUrl" st = Some demo /\
       output_value (output_props demo) =
         FnConditionIf "DemoUICertificateCondition"
           (FnSub "https://${DemoUIDomain}/index.html")
           (FnSub "http://${DemoUIDomain}/index.html") /\
       findParameter "DemoUIDomain" st = None).
Proof.
  intros H Hflag. unfold ConstructsStack, constructor in H. rewrite Hflag in H.
  pass_cases H.
  all: eexists; split; [reflexivity|].
  all: split; intros [c Hc].
  all: match goal with
       | E : tryFindChild ?h ?n = None, Hc : tryFindChild ?h ?n = Some _ |- _ =>
           rewrite E in Hc; discriminate Hc
       | _ => idtac
       end.
  all: eexists; split; [reflexivity|]; split; reflexivity.
Qed.

Lemma certificate_guard_ignores_region_witness :
  exists h,
    imageHandlerOf certifiedStack = Some h /\
    (is_Some (tryFindChild h "ApiCertificateCondition") ->
     exists api,
       findOutput "ApiEndpoint" certifiedStack = Some api /\
       output_value (output_props api) =
         FnConditionIf "ApiCertificateCondition"
           (FnSub "https://${ApiDomain}") (FnSub "http://${ApiDomain}") /\
       findParameter "ApiDomain" certifiedStack = None) /\
    (is_Some (tryFindChild h "DemoUICertificateCondition") ->
     exists demo,
       findOutput "DemoUrl" certifiedStack = Some demo /\
       output_value (output_props demo) =
         FnConditionIf "DemoUICertificateCondition"
           (FnSub "https://${DemoUIDomain}/index.html")
           (FnSub "http://${DemoUIDomain}/index.html") /\
       findParameter "DemoUIDomain" certifiedStack = None).
Proof.
  apply (certificate_guard_ignores_region ∅ certifiedImageHandler
           certifiedStack).
  - vm_compute. reflexivity.
  - vm_compute. reflexivity.
Defined.
